(** * any2en: the chunk pipeline and its language memory

    A shallow embedding of [AudioTranslator] from [src/any2en_.py]:
    [is_valid_audio_file], [detect_language] and [transcribe_and_translate],
    with the Whisper model and the file system as explicit parameters.

    - Python [str] is a sequence of Unicode code points ([Py.str]).
    - Python [float] is IEEE 754 binary64, i.e. Rocq's primitive [float];
      [confidence > 0.3] is [(0.3 <? confidence)%float].
    - Python [dict] keeps insertion order, and [max] looks at it, so the
      language cache is an association list ([Py.dict]).
    - [self] is mutated in place and the mutations survive an exception:
      the pipeline is written in a state-and-exception monad whose state is
      kept when a computation raises. *)

From Stdlib Require Import ZArith NArith List String Ascii Bool Lia Floats.
Import ListNotations.

#[local] Set Warnings "-inexact-float".
#[local] Open Scope Z_scope.

(* ================================================================= *)
(** ** Python values *)

Module Py.

(** [str]: a sequence of code points. *)
Definition str : Type := list N.

(** A string literal of the source (ASCII only). *)
Definition lit (s : string) : str :=
  map N_of_ascii (list_ascii_of_string s).

Fixpoint eqb (a b : str) : bool :=
  match a, b with
  | [], [] => true
  | x :: a', y :: b' => N.eqb x y && eqb a' b'
  | _, _ => false
  end.

(** [not s] for a string: true exactly on the empty string. *)
Definition is_empty (s : str) : bool :=
  match s with [] => true | _ :: _ => false end.

(** [str.isspace] on one code point (CPython's [_PyUnicode_IsWhitespace]). *)
Definition isspace (c : N) : bool :=
  ((9 <=? c) && (c <=? 13) || (28 <=? c) && (c <=? 32)
   || (c =? 133) || (c =? 160) || (c =? 5760)
   || (8192 <=? c) && (c <=? 8202)
   || (c =? 8232) || (c =? 8233) || (c =? 8239) || (c =? 8287)
   || (c =? 12288))%N.

Fixpoint lstrip (s : str) : str :=
  match s with
  | [] => []
  | c :: s' => if isspace c then lstrip s' else s
  end.

Definition rstrip (s : str) : str := rev (lstrip (rev s)).

(** [s.strip()] *)
Definition strip (s : str) : str := rstrip (lstrip s).

(** ["".join(parts)] *)
Definition join (parts : list str) : str := List.concat parts.

(** [dict] with [str] keys and [int] values, in insertion order. *)
Definition dict : Type := list (str * Z).

(** [d.get(k)]: the value stored under [k], [None] when there is none. *)
Fixpoint lookup (d : dict) (k : str) : option Z :=
  match d with
  | [] => None
  | (k', v) :: d' => if eqb k' k then Some v else lookup d' k
  end.

(** [d.get(k, default)] *)
Definition get (d : dict) (k : str) (default : Z) : Z :=
  match lookup d k with Some v => v | None => default end.

(** [d[k] = v]: an existing key keeps its place, a new key goes last. *)
Fixpoint setitem (d : dict) (k : str) (v : Z) : dict :=
  match d with
  | [] => [(k, v)]
  | (k', v') :: d' =>
      if eqb k' k then (k', v) :: d' else (k', v') :: setitem d' k v
  end.

(** [bool(d)], the truth value of a dict in an [if]: true unless empty. *)
Definition truthy (d : dict) : bool :=
  match d with [] => false | _ :: _ => true end.

(** Iterating a dict yields its keys, oldest first. *)
Definition keys (d : dict) : list str := map fst d.

(** The loop of [max(iterable, key=f)]: the running maximum is replaced
    only by a strictly greater value. *)
Fixpoint max_loop (f : str -> Z) (best : str) (best_val : Z) (rest : list str) : str :=
  match rest with
  | [] => best
  | k :: rest' =>
      let v := f k in
      if best_val <? v then max_loop f k v rest' else max_loop f best best_val rest'
  end.

(** [max(iterable, key=f)]; [None] stands for the [ValueError] that an
    empty iterable raises. *)
Definition max (it : list str) (f : str -> Z) : option str :=
  match it with
  | [] => None
  | k :: rest => Some (max_loop f k (f k) rest)
  end.

(** [getattr(obj, name, default)] on an attribute that may be missing. *)
Definition getattr {A : Type} (attr : option A) (default : A) : A :=
  match attr with Some a => a | None => default end.

End Py.


(* ================================================================= *)
(** ** The collaborators: file system and Whisper model *)

(** What [os.path.exists] and [os.path.getsize] can see of a path. *)
Inductive file_status : Type :=
| NoFile                      (* exists() is False *)
| FileOfSize (bytes : Z)      (* exists() is True, getsize() returns *)
| StatFails.                  (* exists() is True, getsize() raises OSError *)

Inductive task : Type := task_transcribe | task_translate.

Definition task_eqb (a b : task) : bool :=
  match a, b with
  | task_transcribe, task_transcribe | task_translate, task_translate => true
  | _, _ => false
  end.

(** The arguments of one [self.model.transcribe(...)] call. *)
Record transcribe_args : Type := {
  audio : Py.str;
  language : option Py.str;                     (* None: auto-detect *)
  call_task : task;
  vad_filter : bool;
  vad_min_silence_duration_ms : option Z;    (* vad_parameters, when given *)
  beam_size : Z;
  condition_on_previous_text : bool;
  no_speech_threshold : float;
  temperature : option float
}.

(** The [segments] generator a call returns: consumed by ["".join], it
    yields its texts and may raise on the way. *)
Record segments : Type := {
  seg_texts : list Py.str;
  seg_raises : bool
}.

(** The [info] object; either attribute may be absent, which is what the
    [getattr] defaults of [detect_language] are for. *)
Record transcription_info : Type := {
  info_language : option Py.str;
  language_probability : option float
}.

(** A call returns [(segments, info)] or fails, that is, raises an
    [Exception], the class both [except] clauses of the pipeline name. *)
Inductive outcome : Type :=
| Returns (segs : segments) (info : transcription_info)
| Raises.

(** The world around one pipeline invocation.  The model is any
    deterministic backend: its answer may depend on every call made so far. *)
Record env : Type := {
  fs : Py.str -> file_status;
  model_transcribe : list transcribe_args -> transcribe_args -> outcome
}.

(* ================================================================= *)
(** ** The translator object *)

(** The fields of [AudioTranslator] the pipeline touches ([self.args] is
    represented by the one flag it reads). *)
Record AudioTranslator : Type := {
  no_vad : bool;
  detected_lang_cache : Py.dict;
  chunk_count : Z;
  last_detected_lang : Py.str
}.

(** [AudioTranslator.__init__] *)
Definition init (args_no_vad : bool) : AudioTranslator :=
  {| no_vad := args_no_vad;
     detected_lang_cache := [];
     chunk_count := 0;
     last_detected_lang := Py.lit "en" |}.

(** The state threaded through the pipeline: the object, and the log of the
    model calls made so far (oldest first). *)
Record state : Type := {
  self : AudioTranslator;
  calls : list transcribe_args
}.

Definition with_self (a : AudioTranslator) (s : state) : state :=
  {| self := a; calls := calls s |}.

Definition with_last_detected_lang (l : Py.str) (a : AudioTranslator) : AudioTranslator :=
  {| no_vad := no_vad a;
     detected_lang_cache := detected_lang_cache a;
     chunk_count := chunk_count a;
     last_detected_lang := l |}.

Definition with_detected_lang_cache (d : Py.dict) (a : AudioTranslator) : AudioTranslator :=
  {| no_vad := no_vad a;
     detected_lang_cache := d;
     chunk_count := chunk_count a;
     last_detected_lang := last_detected_lang a |}.

(* ================================================================= *)
(** ** State and exceptions *)

Inductive result (A : Type) : Type :=
| Ok (a : A)
| Raised.
Arguments Ok {A} a.
Arguments Raised {A}.

(** A computation reads the environment, may change the state, and either
    returns or raises; the state reached is kept in both cases. *)
Definition M (A : Type) : Type := env -> state -> result A * state.

Definition ret {A} (a : A) : M A := fun _ s => (Ok a, s).

Definition bind {A B} (m : M A) (k : A -> M B) : M B :=
  fun E s =>
    match m E s with
    | (Ok a, s') => k a E s'
    | (Raised, s') => (Raised, s')
    end.

Definition raise {A} : M A := fun _ s => (Raised, s).

(** [try: body / except Exception: handler] *)
Definition try_except {A} (body handler : M A) : M A :=
  fun E s =>
    match body E s with
    | (Ok a, s') => (Ok a, s')
    | (Raised, s') => handler E s'
    end.

Definition get_self : M AudioTranslator := fun _ s => (Ok (self s), s).

Definition modify_self (f : AudioTranslator -> AudioTranslator) : M unit :=
  fun _ s => (Ok tt, with_self (f (self s)) s).

(** [self.model.transcribe(...)]: the call is logged, then answered. *)
Definition call_model (a : transcribe_args) : M (segments * transcription_info) :=
  fun E s =>
    let s' := {| self := self s; calls := calls s ++ [a] |} in
    match model_transcribe E (calls s) a with
    | Returns segs info => (Ok (segs, info), s')
    | Raises => (Raised, s')
    end.

(** ["".join(seg.text for seg in segments).strip()] *)
Definition join_segments (segs : segments) : M Py.str :=
  if seg_raises segs then raise
  else ret (Py.strip (Py.join (seg_texts segs))).

Declare Scope py_scope.
Delimit Scope py_scope with py.
Notation "x <- m ;; k" := (bind m (fun x => k))
  (at level 61, m at next level, right associativity) : py_scope.
Notation "' p <- m ;; k" := (bind m (fun x => let p := x in k))
  (at level 61, p pattern, m at next level, right associativity) : py_scope.
Notation "m ;;; k" := (bind m (fun _ => k))
  (at level 61, right associativity) : py_scope.
#[local] Open Scope py_scope.

(* ================================================================= *)
(** ** The pipeline *)

(** [os.path.exists(path)] *)
Definition path_exists (E : env) (path : Py.str) : bool :=
  match fs E path with
  | NoFile => false
  | FileOfSize _ | StatFails => true
  end.

(** [os.path.getsize(path)]; [Raised] is [OSError]. *)
Definition getsize (E : env) (path : Py.str) : result Z :=
  match fs E path with
  | FileOfSize n => Ok n
  | NoFile | StatFails => Raised
  end.

(** [AudioTranslator.is_valid_audio_file] *)
Definition is_valid_audio_file (audio_path : Py.str) : M bool :=
  fun E s =>
    if path_exists E audio_path then
      match getsize E audio_path with
      | Ok n => (Ok (1024 <? n), s)
      | Raised => (Ok false, s)          (* except OSError: return False *)
      end
    else (Ok false, s).

(** The three ways the pipeline calls [self.model.transcribe]; [this] is
    [self] at the time of the call ([vad_filter=not self.args.no_vad]). *)
Definition detection_call (audio_path : Py.str) (this : AudioTranslator) : transcribe_args :=
  {| audio := audio_path;
     language := None;
     call_task := task_transcribe;
     vad_filter := negb (no_vad this);
     vad_min_silence_duration_ms := None;
     beam_size := 1;
     condition_on_previous_text := false;
     no_speech_threshold := 0.6%float;
     temperature := None |}.

Definition transcription_call (audio_path source_lang : Py.str) (this : AudioTranslator)
  : transcribe_args :=
  {| audio := audio_path;
     language := if negb (Py.eqb source_lang (Py.lit "auto"))
                 then Some source_lang else None;
     call_task := task_transcribe;
     vad_filter := negb (no_vad this);
     vad_min_silence_duration_ms := Some 300;
     beam_size := 5;
     condition_on_previous_text := true;
     no_speech_threshold := 0.6%float;
     temperature := Some 0.0%float |}.

Definition translation_call (audio_path source_lang : Py.str) (this : AudioTranslator)
  : transcribe_args :=
  {| audio := audio_path;
     language := Some source_lang;
     call_task := task_translate;
     vad_filter := negb (no_vad this);
     vad_min_silence_duration_ms := Some 300;
     beam_size := 5;
     condition_on_previous_text := true;
     no_speech_threshold := 0.6%float;
     temperature := Some 0.1%float |}.

(** [AudioTranslator.detect_language] *)
Definition detect_language (audio_path : Py.str) : M (Py.str * float) :=
  valid <- is_valid_audio_file audio_path ;;
  if negb valid then
    this <- get_self ;;
    ret (last_detected_lang this, 0.0%float)
  else
    try_except
      (this <- get_self ;;
       '(_, info) <- call_model (detection_call audio_path this) ;;
       this <- get_self ;;
       let detected_lang := Py.getattr (info_language info) (last_detected_lang this) in
       let confidence := Py.getattr (language_probability info) 0.0%float in
       (if (0.3 <? confidence)%float
        then modify_self (with_last_detected_lang detected_lang)
        else ret tt) ;;;
       ret (detected_lang, confidence))
      (this <- get_self ;;
       ret (last_detected_lang this, 0.0%float)).

(** [self.detected_lang_cache[k] = self.detected_lang_cache.get(k, 0) + 1] *)
Definition cache_increment (k : Py.str) (a : AudioTranslator) : AudioTranslator :=
  with_detected_lang_cache
    (Py.setitem (detected_lang_cache a) k (Py.get (detected_lang_cache a) k 0 + 1)) a.

(** Lines 223-241 of [transcribe_and_translate]: the value of the local
    [source_lang] when the language block is left. *)
Definition resolve_source_lang (audio_path source_lang : Py.str) : M Py.str :=
  if Py.eqb source_lang (Py.lit "auto") then
    '(detected_lang, confidence) <- detect_language audio_path ;;
    (if negb (Py.eqb detected_lang (Py.lit "en")) && (0.3 <? confidence)%float
     then modify_self (cache_increment detected_lang)
     else ret tt) ;;;
    if (0.3 <? confidence)%float then ret detected_lang
    else
      this <- get_self ;;
      let cache := detected_lang_cache this in
      if Py.truthy cache then
        (* key=self.detected_lang_cache.get, applied to the dict's own keys *)
        match Py.max (Py.keys cache) (fun k => Py.get cache k 0) with
        | Some k => ret k
        | None => raise
        end
      else ret (last_detected_lang this)
  else ret source_lang.

(** Lines 243-279: transcription, early exit, translation, fallback. *)
Definition transcribe_then_translate (audio_path source_lang : Py.str)
  : M (Py.str * Py.str * Py.str) :=
  this <- get_self ;;
  '(segments_orig, _) <- call_model (transcription_call audio_path source_lang this) ;;
  original_text <- join_segments segments_orig ;;
  if Py.is_empty original_text || Py.eqb source_lang (Py.lit "en") then
    ret (original_text, original_text, source_lang)
  else
    this <- get_self ;;
    '(segments_trans, _) <- call_model (translation_call audio_path source_lang this) ;;
    translated_text <- join_segments segments_trans ;;
    let translated_text :=
      if Py.is_empty translated_text && negb (Py.is_empty original_text)
      then original_text else translated_text in
    ret (original_text, translated_text, source_lang).

(** [AudioTranslator.transcribe_and_translate].

    The handler of the one [try] returns the local [source_lang], which is
    assigned only as the last step of the language block: an exception
    raised inside that block finds the requested value in it, one raised
    later finds the resolved value.  The two nested [try_except] say that. *)
Definition transcribe_and_translate (audio_path source_lang : Py.str)
  : M (Py.str * Py.str * Py.str) :=
  valid <- is_valid_audio_file audio_path ;;
  if negb valid then ret ([], [], source_lang)
  else
    try_except
      (resolved <- resolve_source_lang audio_path source_lang ;;
       try_except
         (transcribe_then_translate audio_path resolved)
         (ret ([], [], resolved)))
      (ret ([], [], source_lang)).

(** One pipeline invocation of a run: the world it meets and its arguments. *)
Record invocation : Type := {
  inv_env : env;
  inv_audio : Py.str;
  inv_language : Py.str
}.

(** Invocations one after the other on the same object, as the loop of
    [run] makes them; the loop goes on whatever an invocation yields. *)
Fixpoint run_invocations (invs : list invocation) (s : state) : state :=
  match invs with
  | [] => s
  | i :: rest =>
      run_invocations rest
        (snd (transcribe_and_translate (inv_audio i) (inv_language i) (inv_env i) s))
  end.

(** The fields of the returned tuple. *)
Definition original_text (r : Py.str * Py.str * Py.str) : Py.str := fst (fst r).
Definition translated_text (r : Py.str * Py.str * Py.str) : Py.str := snd (fst r).
Definition resolved_language (r : Py.str * Py.str * Py.str) : Py.str := snd r.

(** The translate-task calls of a call log. *)
Definition translate_calls (log : list transcribe_args) : list transcribe_args :=
  filter (fun a => task_eqb (call_task a) task_translate) log.

(* ================================================================= *)
(** ** Notions of the specification *)

(** The validity predicate [isUsable]: the chunk exists and is larger than
    1024 bytes. *)
Definition is_usable (E : env) (chunk : Py.str) : bool :=
  match fs E chunk with
  | FileOfSize n => 1024 <? n
  | NoFile | StatFails => false
  end.

(** A dict never holds a key twice. *)
Definition dict_wf (d : Py.dict) : Prop := NoDup (Py.keys d).

(** [k] is the stable argmax of the table: it holds a count that no entry
    exceeds, and every entry inserted before it holds a smaller one. *)
Definition stable_argmax (d : Py.dict) (k : Py.str) : Prop :=
  exists before c after,
    d = before ++ (k, c) :: after /\
    Forall (fun e => snd e < c) before /\
    Forall (fun e => snd e <= c) after.

(** The table [d'] has every entry of [d], with a count at least as great. *)
Definition accumulates (d d' : Py.dict) : Prop :=
  forall k c, Py.lookup d k = Some c -> exists c', Py.lookup d' k = Some c' /\ c <= c'.

(** Language Memory holds no ["auto"]. *)
Definition memory_concrete (a : AudioTranslator) : Prop :=
  last_detected_lang a <> Py.lit "auto" /\
  Forall (fun k => k <> Py.lit "auto") (Py.keys (detected_lang_cache a)).

(** The backend reports concrete language codes only. *)
Definition reports_concrete (E : env) : Prop :=
  forall log a segs info,
    model_transcribe E log a = Returns segs info ->
    info_language info <> Some (Py.lit "auto").

(** The premise of the translation-failure scenario: on a usable chunk the
    language block leaves [lang] in state [s1], the transcription call
    returns segments that join and trim to the non-empty [t], [lang] is not
    English, and the translation call that follows raises. *)
Definition translate_raises_after_text
    (E : env) (s : state) (audio_path source_lang lang t : Py.str) (s1 : state) : Prop :=
  is_usable E audio_path = true /\
  resolve_source_lang audio_path source_lang E s = (Ok lang, s1) /\
  (exists segs info,
      model_transcribe E (calls s1) (transcription_call audio_path lang (self s1))
        = Returns segs info /\
      seg_raises segs = false /\
      Py.strip (Py.join (seg_texts segs)) = t) /\
  t <> [] /\
  lang <> Py.lit "en" /\
  model_transcribe E
    (calls s1 ++ [transcription_call audio_path lang (self s1)])
    (translation_call audio_path lang (self s1)) = Raises.

(* ================================================================= *)
(** ** Concrete worlds *)

Definition chunk_wav : Py.str := Py.lit "/tmp/tmpa1b2c3.wav".

(** "konnichiwa" in hiragana, U+3053 U+3093 U+306B U+3061 U+306F. *)
Definition konnichiwa : Py.str := [12371; 12435; 12395; 12385; 12399]%N.

(** A file system holding [chunk_wav] in the given status and nothing else. *)
Definition fs_chunk (st : file_status) : Py.str -> file_status :=
  fun path => if Py.eqb path chunk_wav then st else NoFile.

Definition said (texts : list Py.str) : segments :=
  {| seg_texts := texts; seg_raises := false |}.

Definition heard (lang : Py.str) (p : float) : transcription_info :=
  {| info_language := Some lang; language_probability := Some p |}.

(** A backend that answers by the kind of call: detection (no language
    hint), transcription, translation. *)
Definition backend (detection transcription translation : outcome)
  : list transcribe_args -> transcribe_args -> outcome :=
  fun _ a =>
    match call_task a, language a with
    | task_translate, _ => translation
    | task_transcribe, None => detection
    | task_transcribe, Some _ => transcription
    end.

Definition world (st : file_status) (detection transcription translation : outcome) : env :=
  {| fs := fs_chunk st;
     model_transcribe := backend detection transcription translation |}.

(** Detection is unsure (confidence 0.1); transcription and translation
    answer. *)
Definition world_unsure : env :=
  world (FileOfSize 4000)
    (Returns (said []) (heard (Py.lit "ja") 0.1%float))
    (Returns (said [Py.lit " good "; Py.lit "morning "]) (heard (Py.lit "en") 1%float))
    (Returns (said [Py.lit "Good morning."]) (heard (Py.lit "en") 1%float)).

(** Japanese is detected, transcribed and translated. *)
Definition world_hello : env :=
  world (FileOfSize 4000)
    (Returns (said []) (heard (Py.lit "ja") 0.92%float))
    (Returns (said [konnichiwa]) (heard (Py.lit "ja") 1%float))
    (Returns (said [Py.lit " Hello"]) (heard (Py.lit "ja") 1%float)).

(** Japanese is requested and the transcription is blank. *)
Definition world_silence : env :=
  world (FileOfSize 4000)
    Raises
    (Returns (said [Py.lit " "; Py.lit ""]) (heard (Py.lit "ja") 1%float))
    (Returns (said [Py.lit "Thank you."]) (heard (Py.lit "ja") 1%float)).

(** Japanese is detected and transcribed, and the translation comes back
    blank. *)
Definition world_blank_translation : env :=
  world (FileOfSize 4000)
    (Returns (said []) (heard (Py.lit "ja") 0.92%float))
    (Returns (said [konnichiwa]) (heard (Py.lit "ja") 1%float))
    (Returns (said [Py.lit "  "]) (heard (Py.lit "ja") 1%float)).

(** A chunk of 500 bytes; the model would fail if it were asked. *)
Definition world_tiny : env := world (FileOfSize 500) Raises Raises Raises.

(** Japanese is detected and transcribed, and the translation call raises. *)
Definition world_translation_fails : env :=
  world (FileOfSize 4000)
    (Returns (said []) (heard (Py.lit "ja") 0.92%float))
    (Returns (said [konnichiwa]) (heard (Py.lit "ja") 1%float))
    Raises.

(** Japanese is detected, and every later call raises. *)
Definition world_fails_after_detection : env :=
  world (FileOfSize 4000)
    (Returns (said []) (heard (Py.lit "ja") 0.92%float)) Raises Raises.

(** English is detected with confidence 0.95. *)
Definition world_english : env :=
  world (FileOfSize 4000)
    (Returns (said []) (heard (Py.lit "en") 0.95%float))
    (Returns (said [Py.lit "good morning"]) (heard (Py.lit "en") 1%float))
    Raises.

(** A translator straight out of [__init__], no call made yet. *)
Definition fresh : state := {| self := init false; calls := [] |}.

(** A translator that has counted Japanese twice, then Korean twice, then
    French once, and last confirmed Japanese. *)
Definition seasoned : state :=
  {| self := {| no_vad := false;
                detected_lang_cache := [(Py.lit "ja", 2); (Py.lit "ko", 2); (Py.lit "fr", 1)];
                chunk_count := 5;
                last_detected_lang := Py.lit "ja" |};
     calls := [] |}.

(* ================================================================= *)
(** ** Three properties as the specification words them

    These are compared below with what the code does. *)

(** "resolvedLanguage is never the sentinel auto once a pipeline
    invocation completes." *)
Definition never_auto_as_stated (E : env) (s : state) (audio_path source_lang : Py.str) : Prop :=
  forall r s',
    transcribe_and_translate audio_path source_lang E s = (Ok r, s') ->
    resolved_language r <> Py.lit "auto".

(** "translate call raises while transcribe succeeded with non-empty text:
    translatedText falls back to originalText, result still returned." *)
Definition translate_fallback_as_stated
    (E : env) (s : state) (audio_path source_lang : Py.str) : Prop :=
  forall lang t s1,
    translate_raises_after_text E s audio_path source_lang lang t s1 ->
    exists r s',
      transcribe_and_translate audio_path source_lang E s = (Ok r, s') /\
      translated_text r = t.

(** "updates lastConfirmed iff confidence exceeds threshold and lang is not
    en." *)
Definition last_confirmed_rule_as_stated (E : env) (s : state) (audio_path : Py.str) : Prop :=
  forall lang confidence s',
    detect_language audio_path E s = (Ok (lang, confidence), s') ->
    last_detected_lang (self s') =
      if (0.3 <? confidence)%float && negb (Py.eqb lang (Py.lit "en"))
      then lang else last_detected_lang (self s).

(* ================================================================= *)
(** ** More of Python: splitting and searching strings *)

Module PyStr.

(** [s.split(sep)] for a one-character separator: one more part than there
    are separators, empty parts included. *)
Fixpoint split (sep : N) (s : Py.str) : list Py.str :=
  match s with
  | [] => [[]]
  | c :: s' =>
      if N.eqb c sep then [] :: split sep s'
      else
        match split sep s' with
        | [] => [[c]]
        | part :: parts => (c :: part) :: parts
        end
  end.

(** [s.startswith(prefix)] *)
Fixpoint startswith (s prefix : Py.str) : bool :=
  match prefix, s with
  | [], _ => true
  | _ :: _, [] => false
  | p :: prefix', c :: s' => N.eqb p c && startswith s' prefix'
  end.

(** [needle in hay] *)
Fixpoint contains (needle hay : Py.str) : bool :=
  startswith hay needle ||
  match hay with
  | [] => false
  | _ :: hay' => contains needle hay'
  end.

Definition tab : N := 9.
Definition newline : N := 10.

End PyStr.

(* ================================================================= *)
(** ** The table of languages *)

#[local] Open Scope string_scope.

(** [SUPPORTED_LANGUAGES], in the order of the source. *)
Definition SUPPORTED_LANGUAGES : list (string * string) :=
  [
   ("auto", "Auto-detect"); ("zh", "Chinese"); ("de", "German");
   ("es", "Spanish"); ("ru", "Russian"); ("ko", "Korean");
   ("fr", "French"); ("ja", "Japanese"); ("pt", "Portuguese");
   ("tr", "Turkish"); ("pl", "Polish"); ("ca", "Catalan");
   ("nl", "Dutch"); ("ar", "Arabic"); ("sv", "Swedish");
   ("it", "Italian"); ("id", "Indonesian"); ("hi", "Hindi");
   ("fi", "Finnish"); ("vi", "Vietnamese"); ("he", "Hebrew");
   ("uk", "Ukrainian"); ("el", "Greek"); ("ms", "Malay");
   ("cs", "Czech"); ("ro", "Romanian"); ("da", "Danish");
   ("hu", "Hungarian"); ("ta", "Tamil"); ("no", "Norwegian");
   ("th", "Thai"); ("ur", "Urdu"); ("hr", "Croatian");
   ("bg", "Bulgarian"); ("lt", "Lithuanian"); ("la", "Latin");
   ("mi", "Maori"); ("ml", "Malayalam"); ("cy", "Welsh");
   ("sk", "Slovak"); ("te", "Telugu"); ("fa", "Persian");
   ("lv", "Latvian"); ("bn", "Bengali"); ("sr", "Serbian");
   ("az", "Azerbaijani"); ("sl", "Slovenian"); ("kn", "Kannada");
   ("et", "Estonian"); ("mk", "Macedonian"); ("br", "Breton");
   ("eu", "Basque"); ("is", "Icelandic"); ("hy", "Armenian");
   ("ne", "Nepali"); ("mn", "Mongolian"); ("bs", "Bosnian");
   ("kk", "Kazakh"); ("sq", "Albanian"); ("sw", "Swahili");
   ("gl", "Galician"); ("mr", "Marathi"); ("pa", "Punjabi");
   ("si", "Sinhala"); ("km", "Khmer"); ("sn", "Shona");
   ("yo", "Yoruba"); ("so", "Somali"); ("af", "Afrikaans");
   ("oc", "Occitan"); ("ka", "Georgian"); ("be", "Belarusian");
   ("tg", "Tajik"); ("sd", "Sindhi"); ("gu", "Gujarati");
   ("am", "Amharic"); ("yi", "Yiddish"); ("lo", "Lao");
   ("uz", "Uzbek"); ("fo", "Faroese"); ("ht", "Haitian creole");
   ("ps", "Pashto"); ("tk", "Turkmen"); ("nn", "Nynorsk");
   ("mt", "Maltese"); ("sa", "Sanskrit"); ("lb", "Luxembourgish");
   ("my", "Myanmar"); ("bo", "Tibetan"); ("tl", "Tagalog");
   ("mg", "Malagasy"); ("as", "Assamese"); ("tt", "Tatar");
   ("haw", "Hawaiian"); ("ln", "Lingala"); ("ha", "Hausa");
   ("ba", "Bashkir"); ("jw", "Javanese"); ("su", "Sundanese")
  ].

#[local] Close Scope string_scope.

(** [SUPPORTED_LANGUAGES.get(code, default)] *)
Definition languages_get (code default : Py.str) : Py.str :=
  match find (fun e => Py.eqb (Py.lit (fst e)) code) SUPPORTED_LANGUAGES with
  | Some e => Py.lit (snd e)
  | None => default
  end.

(* ================================================================= *)
(** ** The host: console, processes, model loading *)

(** The parsed command line, [self.args]; its [no_vad] flag is the field of
    that name of [AudioTranslator]. *)
Record Args : Type := {
  args_source : Py.str;
  args_language : Py.str;
  args_model : Py.str;
  args_device : Py.str;
  args_compute_type : Py.str;
  args_chunk : float;
  args_bilingual : bool;
  args_show_original : bool;
  args_show_timestamps : bool;
  args_compact : bool;
  args_list_sources : bool
}.

(** How a [subprocess.run(..., check=True)] ends: with exit status zero and
    some standard output, with [CalledProcessError] (whose text is kept, as it
    is printed), with [FileNotFoundError], or with another exception. *)
Inductive proc_outcome : Type :=
| Completed (stdout : Py.str)
| CalledProcessError (text : Py.str)
| FileNotFoundError
| OtherProcError.

(** The arguments of one [WhisperModel(...)] construction. *)
Record model_args : Type := {
  ctor_model_size : Py.str;
  ctor_device : Py.str;
  ctor_compute_type : Py.str
}.

(** A construction gives a model or raises an exception with some text. *)
Inductive ctor_outcome : Type :=
| Constructed
| CtorRaises (text : Py.str).

(** What is handed to [console.print]: a string or a [Table] with its rows. *)
Inductive printable : Type :=
| Text (s : Py.str)
| TableOf (rows : list (Py.str * Py.str * Py.str)).

(** The machine around the translator.  Processes and constructions may
    answer by what was run before them. *)
Record host : Type := {
  now_hms : Py.str;                       (* datetime.now().strftime('%H:%M:%S') *)
  str_upper : Py.str -> Py.str;           (* str.upper *)
  str_lower : Py.str -> Py.str;           (* str.lower *)
  str_of_float : float -> Py.str;         (* str(x) *)
  subprocess_run : list (list Py.str) -> list Py.str -> proc_outcome;
  WhisperModel : list model_args -> model_args -> ctor_outcome
}.

(** The translator with the traces it leaves: what was printed, which
    processes were run, which models were constructed, which files were
    handed to [os.remove] (all oldest first). *)
Record session : Type := {
  translator : state;
  console : list printable;
  spawned : list (list Py.str);
  constructed : list model_args;
  removed : list Py.str
}.

Definition with_translator (t : state) (s : session) : session :=
  {| translator := t; console := console s; spawned := spawned s;
     constructed := constructed s; removed := removed s |}.

(** [console.print(x)] *)
Definition console_print (x : printable) (s : session) : session :=
  {| translator := translator s; console := console s ++ [x]; spawned := spawned s;
     constructed := constructed s; removed := removed s |}.

(** [subprocess.run(argv, check=True)]: logged, then answered. *)
Definition run_process (H : host) (argv : list Py.str) (s : session) : proc_outcome * session :=
  (subprocess_run H (spawned s) argv,
   {| translator := translator s; console := console s; spawned := spawned s ++ [argv];
      constructed := constructed s; removed := removed s |}).

(** [WhisperModel(size, device=..., compute_type=...)]: logged, then answered. *)
Definition construct_model (H : host) (a : model_args) (s : session) : ctor_outcome * session :=
  (WhisperModel H (constructed s) a,
   {| translator := translator s; console := console s; spawned := spawned s;
      constructed := constructed s ++ [a]; removed := removed s |}).

(** [try: os.remove(path) / except (OSError, FileNotFoundError): pass] *)
Definition os_remove_quietly (path : Py.str) (s : session) : session :=
  {| translator := translator s; console := console s; spawned := spawned s;
     constructed := constructed s; removed := removed s ++ [path] |}.

(** [self.chunk_count += 1] *)
Definition count_chunk (s : session) : session :=
  with_translator
    (with_self
       {| no_vad := no_vad (self (translator s));
          detected_lang_cache := detected_lang_cache (self (translator s));
          chunk_count := chunk_count (self (translator s)) + 1;
          last_detected_lang := last_detected_lang (self (translator s)) |}
       (translator s)) s.

(** A function of this layer returns, or leaves with one of the exceptions
    the code tells apart. *)
Inductive exn : Type :=
| ExCalledProcessError (text : Py.str)
| ExFileNotFoundError
| ExOther.

Inductive effect (A : Type) : Type :=
| Done (a : A)
| Throws (e : exn).
Arguments Done {A} a.
Arguments Throws {A} e.

(* ================================================================= *)
(** ** The rest of [AudioTranslator] *)

(** The [cmd] list of [record_chunk]. *)
Definition ffmpeg_cmd (H : host) (pulse_source : Py.str) (seconds : float) (out_path : Py.str)
  : list Py.str :=
  [Py.lit "ffmpeg"; Py.lit "-hide_banner";
   Py.lit "-loglevel"; Py.lit "error";
   Py.lit "-f"; Py.lit "pulse";
   Py.lit "-i"; pulse_source;
   Py.lit "-vn";
   Py.lit "-ac"; Py.lit "1";
   Py.lit "-ar"; Py.lit "16000";
   Py.lit "-t"; str_of_float H seconds;
   Py.lit "-y"; out_path].

(** [AudioTranslator.record_chunk] *)
Definition record_chunk (H : host) (pulse_source : Py.str) (seconds : float) (out_path : Py.str)
    (s : session) : effect bool * session :=
  match run_process H (ffmpeg_cmd H pulse_source seconds out_path) s with
  | (Completed _, s1) => (Done true, s1)
  | (CalledProcessError e, s1) =>
      (Done false,
       console_print (Text (Py.lit "[red]Audio recording failed:[/] " ++ e)) s1)
  | (FileNotFoundError, s1) =>
      (Done false,
       console_print
         (Text (Py.lit "[red]ffmpeg not found. Install with: sudo pacman -S ffmpeg[/]")) s1)
  | (OtherProcError, s1) => (Throws ExOther, s1)
  end.

(** The first half of [load_model]: the device to construct on. *)
Definition choose_device (H : host) (device : Py.str) (s : session)
  : effect Py.str * session :=
  if Py.eqb device (Py.lit "auto") then
    match run_process H [Py.lit "nvidia-smi"] s with
    | (Completed _, s1) =>
        (Done (Py.lit "cuda"),
         console_print (Text (Py.lit "[green]" ++ [10003]%N ++ Py.lit " CUDA GPU detected[/]")) s1)
    | (CalledProcessError _, s1) | (FileNotFoundError, s1) =>
        (Done (Py.lit "cpu"),
         console_print
           (Text (Py.lit "[yellow]" ++ [9888]%N ++ Py.lit " No CUDA GPU detected, using CPU[/]")) s1)
    | (OtherProcError, s1) => (Throws ExOther, s1)
    end
  else (Done device, s).

(** [AudioTranslator.load_model]; the model it returns is named by the
    arguments it was constructed with. *)
Definition load_model (H : host) (model_size device compute_type : Py.str) (s : session)
  : effect model_args * session :=
  match choose_device H device s with
  | (Throws e, s1) => (Throws e, s1)
  | (Done device, s1) =>
      let first := {| ctor_model_size := model_size; ctor_device := device;
                      ctor_compute_type := compute_type |} in
      match construct_model H first s1 with
      | (Constructed, s2) => (Done first, s2)
      | (CtorRaises e, s2) =>
          let s3 := console_print (Text (Py.lit "[red]Failed to load model:[/] " ++ e)) s2 in
          let s4 := console_print (Text (Py.lit "[yellow]Falling back to CPU with int8[/]")) s3 in
          let second := {| ctor_model_size := model_size; ctor_device := Py.lit "cpu";
                           ctor_compute_type := Py.lit "int8" |} in
          match construct_model H second s4 with
          | (Constructed, s5) => (Done second, s5)
          | (CtorRaises _, s5) => (Throws ExOther, s5)
          end
      end
  end.

(** The test of both layouts of [display_result]:
    [detected_lang != "en" and translated and translated != original]. *)
Definition shows_translation (original translated detected_lang : Py.str) : bool :=
  negb (Py.eqb detected_lang (Py.lit "en"))
  && negb (Py.is_empty translated)
  && negb (Py.eqb translated original).

Definition line_translated_compact (prefix lang_name translated : Py.str) : printable :=
  Text (prefix ++ Py.lit "[bold blue]" ++ lang_name ++ [8594]%N ++ Py.lit "EN:[/] " ++ translated).

Definition line_original (prefix lang_name original : Py.str) : printable :=
  Text (prefix ++ Py.lit "[bold green]" ++ lang_name ++ Py.lit ":[/] " ++ original).

Definition line_original_dim (lang_name original : Py.str) : printable :=
  Text (Py.lit "[dim]" ++ lang_name ++ Py.lit ":[/] " ++ original).

Definition line_english (translated : Py.str) : printable :=
  Text (Py.lit "[bold yellow]English:[/] " ++ translated).

Definition line_timestamp (timestamp : Py.str) : printable :=
  Text (Py.lit "[dim]" ++ [9492; 9472]%N ++ Py.lit " " ++ timestamp ++ Py.lit "[/]").

Definition print_if (b : bool) (x : printable) (s : session) : session :=
  if b then console_print x s else s.

(** [AudioTranslator.display_result] *)
Definition display_result (H : host) (a : Args) (original translated detected_lang : Py.str)
    (s : session) : session :=
  if Py.is_empty translated && Py.is_empty original then s
  else
    let s := count_chunk s in
    let timestamp := if args_show_timestamps a then now_hms H else [] in
    let lang_name := languages_get detected_lang (str_upper H detected_lang) in
    if args_compact a then
      let prefix :=
        if negb (Py.is_empty timestamp) then Py.lit "[" ++ timestamp ++ Py.lit "] " else [] in
      if shows_translation original translated detected_lang then
        console_print (line_translated_compact prefix lang_name translated) s
      else if negb (Py.is_empty original) then
        console_print (line_original prefix lang_name original) s
      else s
    else
      let s :=
        if shows_translation original translated detected_lang then
          let s := print_if (args_show_original a || args_bilingual a)
                     (line_original_dim lang_name original) s in
          console_print (line_english translated) s
        else if negb (Py.is_empty original) then
          console_print (line_original [] lang_name original) s
        else
          let s := print_if (negb (Py.is_empty original))
                     (line_original_dim lang_name original) s in
          print_if (negb (Py.is_empty translated)) (line_english translated) s in
      print_if (negb (Py.is_empty timestamp)) (line_timestamp timestamp) s.

(** The rows [list_audio_sources] adds for the lines of [pactl]'s output. *)
Fixpoint monitor_rows (H : host) (lines : list Py.str) : list (Py.str * Py.str * Py.str) :=
  match lines with
  | [] => []
  | line :: rest =>
      if PyStr.contains (Py.lit "monitor") (str_lower H line) then
        match PyStr.split PyStr.tab line with
        | index :: name :: _ =>
            (index, name, Py.lit "Desktop Audio Monitor") :: monitor_rows H rest
        | _ => monitor_rows H rest
        end
      else monitor_rows H rest
  end.

(** [AudioTranslator.list_audio_sources] *)
Definition list_audio_sources (H : host) (s : session) : effect unit * session :=
  match run_process H [Py.lit "pactl"; Py.lit "list"; Py.lit "short"; Py.lit "sources"] s with
  | (Completed stdout, s1) =>
      let s2 := console_print (Text (10%N :: Py.lit "[bold cyan]Available Audio Sources:[/]")) s1 in
      let rows := monitor_rows H (PyStr.split PyStr.newline (Py.strip stdout)) in
      let s3 := console_print (TableOf rows) s2 in
      (Done tt,
       console_print
         (Text (10%N :: Py.lit "[yellow]Use --source <name> to select a specific source[/]"
                ++ [10%N])) s3)
  | (CalledProcessError _, s1) =>
      (Done tt,
       console_print
         (Text (Py.lit "[red]Could not list audio sources. Make sure PulseAudio/PipeWire is running.[/]"))
         s1)
  | (FileNotFoundError, s1) => (Throws ExFileNotFoundError, s1)
  | (OtherProcError, s1) => (Throws ExOther, s1)
  end.

(** What one pass of the loop of [run] meets: the machine, the temporary
    file it was given, and the file system and model as they are once the
    recording is over. *)
Record iteration : Type := {
  it_host : host;
  it_tmp_path : Py.str;
  it_env : env
}.

(** The body of the [while True] of [run], from [record_chunk] to
    [os.remove]. *)
Definition run_iteration (a : Args) (it : iteration) (s : session) : session :=
  let H := it_host it in
  let tmp_path := it_tmp_path it in
  let s' :=
    match record_chunk H (args_source a) (args_chunk a) tmp_path s with
    | (Done true, s1) =>
        match is_valid_audio_file tmp_path (it_env it) (translator s1) with
        | (Ok true, t1) =>
            match transcribe_and_translate tmp_path (args_language a) (it_env it) t1 with
            | (Ok (original, translated, detected_lang), t2) =>
                let s2 := with_translator t2 s1 in
                if negb (Py.is_empty original) || negb (Py.is_empty translated)
                then display_result H a original translated detected_lang s2
                else s2
            | (Raised, t2) => with_translator t2 s1      (* except Exception: pass *)
            end
        | (_, t1) => with_translator t1 s1
        end
    | (Done false, s1) => s1
    | (Throws _, s1) => s1                               (* except Exception: pass *)
    end in
  os_remove_quietly tmp_path s'.

(** The first passes of the loop, one after the other. *)
Fixpoint run_loop (a : Args) (its : list iteration) (s : session) : session :=
  match its with
  | [] => s
  | it :: rest => run_loop a rest (run_iteration a it s)
  end.

(** A session before anything happened. *)
Definition new_session (t : state) : session :=
  {| translator := t; console := []; spawned := []; constructed := []; removed := [] |}.

(* ================================================================= *)
(** ** A concrete machine *)

(** Upper and lower case on the ASCII letters, which is what [str.upper]
    and [str.lower] do to ASCII text. *)
Definition ascii_upper (s : Py.str) : Py.str :=
  map (fun c => if (97 <=? c) && (c <=? 122) then c - 32 else c)%N s.

Definition ascii_lower (s : Py.str) : Py.str :=
  map (fun c => if (65 <=? c) && (c <=? 90) then c + 32 else c)%N s.

(** What [pactl list short sources] prints on a machine with one sink and
    one microphone. *)
Definition pactl_stdout : Py.str :=
  Py.lit "52" ++ [9%N] ++ Py.lit "alsa_output.pci-0000_00_1f.3.analog-stereo.monitor"
    ++ [9%N] ++ Py.lit "PipeWire" ++ [9%N] ++ Py.lit "s32le 2ch 48000Hz"
    ++ [9%N] ++ Py.lit "SUSPENDED" ++ [10%N]
  ++ Py.lit "53" ++ [9%N] ++ Py.lit "alsa_input.pci-0000_00_1f.3.analog-stereo"
    ++ [9%N] ++ Py.lit "PipeWire" ++ [9%N] ++ Py.lit "s32le 2ch 48000Hz"
    ++ [9%N] ++ Py.lit "SUSPENDED" ++ [10%N].

(** A machine where the named programs end as given, any other program is
    missing, and a model can be constructed on every device but "cuda". *)
Definition machine (ffmpeg nvidia_smi pactl : proc_outcome) : host :=
  {| now_hms := Py.lit "21:07:45";
     str_upper := ascii_upper;
     str_lower := ascii_lower;
     str_of_float := fun _ => Py.lit "3.0";
     subprocess_run := fun _ argv =>
       match argv with
       | program :: _ =>
           if Py.eqb program (Py.lit "ffmpeg") then ffmpeg
           else if Py.eqb program (Py.lit "nvidia-smi") then nvidia_smi
           else if Py.eqb program (Py.lit "pactl") then pactl
           else FileNotFoundError
       | [] => OtherProcError
       end;
     WhisperModel := fun _ a =>
       if Py.eqb (ctor_device a) (Py.lit "cuda")
       then CtorRaises (Py.lit "CUDA driver version is insufficient")
       else Constructed |}.

(** A laptop: ffmpeg and pactl work, there is no nvidia-smi. *)
Definition laptop : host := machine (Completed []) FileNotFoundError (Completed pactl_stdout).

(** A machine without ffmpeg. *)
Definition bare : host := machine FileNotFoundError FileNotFoundError FileNotFoundError.

(** A machine whose nvidia-smi answers although CUDA cannot be used. *)
Definition stale_driver : host := machine (Completed []) (Completed []) (Completed pactl_stdout).

(** The defaults of the argument parser. *)
Definition default_args : Args :=
  {| args_source := Py.lit "default";
     args_language := Py.lit "auto";
     args_model := Py.lit "small";
     args_device := Py.lit "auto";
     args_compute_type := Py.lit "int8";
     args_chunk := 3.0%float;
     args_bilingual := false;
     args_show_original := false;
     args_show_timestamps := false;
     args_compact := false;
     args_list_sources := false |}.

(** [--compact --show-timestamps] *)
Definition compact_args : Args :=
  {| args_source := Py.lit "default";
     args_language := Py.lit "auto";
     args_model := Py.lit "small";
     args_device := Py.lit "auto";
     args_compute_type := Py.lit "int8";
     args_chunk := 3.0%float;
     args_bilingual := false;
     args_show_original := false;
     args_show_timestamps := true;
     args_compact := true;
     args_list_sources := false |}.

(** [--bilingual --show-timestamps --device cpu] *)
Definition bilingual_args : Args :=
  {| args_source := Py.lit "default";
     args_language := Py.lit "auto";
     args_model := Py.lit "small";
     args_device := Py.lit "cpu";
     args_compute_type := Py.lit "int8";
     args_chunk := 3.0%float;
     args_bilingual := true;
     args_show_original := false;
     args_show_timestamps := true;
     args_compact := false;
     args_list_sources := false |}.

(** The invariant of the frequency table that the language block keeps:
    English is not in it, and every count is at least one. *)
Definition table_sound (d : Py.dict) : Prop :=
  Forall (fun e => fst e <> Py.lit "en" /\ 1 <= snd e) d.

(* ================================================================= *)
(** * Facts about the Python values *)

Module PyFacts.

Lemma eqb_eq (a b : Py.str) : Py.eqb a b = true <-> a = b.
Proof.
  revert b; induction a as [|x a IH]; intros [|y b]; simpl;
    try (split; [discriminate | congruence]); [tauto|].
  rewrite andb_true_iff, N.eqb_eq, IH.
  split; [intros [-> ->]; reflexivity | intros H; inversion H; auto].
Qed.

Lemma eqb_refl (a : Py.str) : Py.eqb a a = true.
Proof. apply eqb_eq; reflexivity. Qed.

Lemma eqb_neq (a b : Py.str) : Py.eqb a b = false <-> a <> b.
Proof.
  rewrite <- eqb_eq. destruct (Py.eqb a b); split; intros; congruence.
Qed.

Lemma eqb_sym (a b : Py.str) : Py.eqb a b = Py.eqb b a.
Proof.
  destruct (Py.eqb b a) eqn:H.
  - apply eqb_eq in H; subst; apply eqb_refl.
  - apply eqb_neq; apply eqb_neq in H; congruence.
Qed.

Lemma is_empty_true (t : Py.str) : Py.is_empty t = true <-> t = [].
Proof. destruct t; simpl; split; congruence. Qed.

(** *** The dict *)

Lemma lookup_setitem_same (d : Py.dict) k v :
  Py.lookup (Py.setitem d k v) k = Some v.
Proof.
  induction d as [|[k' v'] d IH]; simpl.
  - now rewrite eqb_refl.
  - destruct (Py.eqb k' k) eqn:H; simpl; rewrite H; auto.
Qed.

Lemma lookup_setitem_other (d : Py.dict) k v k0 :
  k0 <> k -> Py.lookup (Py.setitem d k v) k0 = Py.lookup d k0.
Proof.
  intros Hne. induction d as [|[k' v'] d IH]; simpl.
  - apply eqb_neq in Hne. now rewrite eqb_sym, Hne.
  - destruct (Py.eqb k' k) eqn:H; simpl.
    + apply eqb_eq in H; subst k'.
      assert (Py.eqb k k0 = false) as -> by (apply eqb_neq; congruence).
      reflexivity.
    + now rewrite IH.
Qed.

Lemma lookup_none_keys (d : Py.dict) k :
  Py.lookup d k = None <-> ~ In k (Py.keys d).
Proof.
  induction d as [|[k' v'] d IH]; simpl; [tauto|].
  destruct (Py.eqb k' k) eqn:H.
  - apply eqb_eq in H. split; [discriminate | intros Hn; exfalso; auto].
  - apply eqb_neq in H. rewrite IH. tauto.
Qed.

(** Assigning to a key already there keeps the keys; assigning to a new
    key adds it at the end. *)
Lemma keys_setitem (d : Py.dict) k v :
  Py.keys (Py.setitem d k v) =
    match Py.lookup d k with
    | Some _ => Py.keys d
    | None => Py.keys d ++ [k]
    end.
Proof.
  induction d as [|[k' v'] d IH]; simpl; [reflexivity|].
  destruct (Py.eqb k' k) eqn:H; simpl; [reflexivity|].
  rewrite IH. now destruct (Py.lookup d k).
Qed.

Lemma dict_wf_setitem (d : Py.dict) k v :
  dict_wf d -> dict_wf (Py.setitem d k v).
Proof.
  unfold dict_wf. intros Hd. rewrite keys_setitem.
  destruct (Py.lookup d k) eqn:Hl; [assumption|].
  apply lookup_none_keys in Hl.
  apply NoDup_app; [assumption | repeat constructor; simpl; tauto |].
  intros x Hx [<-|[]]. contradiction.
Qed.

Lemma lookup_in (d : Py.dict) k v :
  dict_wf d -> In (k, v) d -> Py.lookup d k = Some v.
Proof.
  unfold dict_wf. induction d as [|[k' v'] d IH]; simpl; [tauto|].
  intros Hd [Heq|Hin].
  - inversion Heq; subst. now rewrite eqb_refl.
  - inversion Hd as [|? ? Hnotin Hd']; subst.
    destruct (Py.eqb k' k) eqn:H.
    + apply eqb_eq in H; subst k'. exfalso. apply Hnotin.
      change k with (fst (k, v)). now apply in_map.
    + auto.
Qed.

(** *** [max] *)

(** The loop keeps the first of the greatest values it has seen: with
    [best] already ahead of everything in [seen], the answer sits at a place
    all of whose predecessors are smaller and none of whose successors is
    greater. *)
Lemma max_loop_stable (f : Py.str -> Z) (rest seen : list Py.str) (best : Py.str) after0 :
  Forall (fun k => f k < f best) seen ->
  Forall (fun k => f k <= f best) after0 ->
  exists before after,
    seen ++ best :: after0 ++ rest = before ++ Py.max_loop f best (f best) rest :: after /\
    Forall (fun k => f k < f (Py.max_loop f best (f best) rest)) before /\
    Forall (fun k => f k <= f (Py.max_loop f best (f best) rest)) after.
Proof.
  revert seen best after0.
  induction rest as [|k rest IH]; intros seen best after0 Hseen Hafter; simpl.
  - exists seen, after0. rewrite app_nil_r. auto.
  - destruct (f best <? f k) eqn:Hlt.
    + apply Z.ltb_lt in Hlt.
      destruct (IH (seen ++ best :: after0) k []) as (b & a & Heq & Hb & Ha).
      * apply Forall_app; split; [|constructor].
        -- eapply Forall_impl; [|exact Hseen]. simpl; intros; lia.
        -- assumption.
        -- eapply Forall_impl; [|exact Hafter]. simpl; intros; lia.
      * constructor.
      * exists b, a. split; [|auto].
        rewrite <- Heq. repeat (rewrite <- app_assoc; simpl). reflexivity.
    + apply Z.ltb_ge in Hlt.
      destruct (IH seen best (after0 ++ [k])) as (b & a & Heq & Hb & Ha).
      * assumption.
      * apply Forall_app; split; [assumption | repeat constructor; assumption].
      * exists b, a. split; [|auto].
        rewrite <- Heq. repeat (rewrite <- app_assoc; simpl). reflexivity.
Qed.

Lemma get_in (d : Py.dict) k v default :
  dict_wf d -> In (k, v) d -> Py.get d k default = v.
Proof. intros Hd Hin. unfold Py.get. now rewrite (lookup_in d k v Hd Hin). Qed.

(** [max(d, key=d.get)] on a non-empty dict is the stable argmax of [d]. *)
Lemma max_keys_stable_argmax (d : Py.dict) :
  dict_wf d -> Py.truthy d = true ->
  exists k, Py.max (Py.keys d) (fun k => Py.get d k 0) = Some k /\ stable_argmax d k.
Proof.
  intros Hwf Hne.
  destruct d as [|[k0 v0] d']; [discriminate|].
  set (d := (k0, v0) :: d') in *.
  set (f := fun k => Py.get d k 0).
  exists (Py.max_loop f k0 (f k0) (Py.keys d')). split; [reflexivity|].
  destruct (max_loop_stable f (Py.keys d') [] k0 []) as (b & a & Heq & Hb & Ha);
    [constructor | constructor |].
  simpl in Heq.
  set (km := Py.max_loop f k0 (f k0) (Py.keys d')) in *.
  change (k0 :: Py.keys d') with (map fst d) in Heq.
  apply map_eq_app in Heq. destruct Heq as (d1 & d2' & Hd & Hd1 & Hd2).
  apply map_eq_cons in Hd2. destruct Hd2 as ([km' c] & d2 & -> & Hkm & Hd2).
  simpl in Hkm; subst km'.
  assert (Hval : forall e, In e d -> f (fst e) = snd e).
  { intros [k v] Hin. simpl. unfold f. now apply get_in. }
  assert (Hc : f km = c).
  { apply (Hval (km, c)). rewrite Hd. apply in_or_app. right. left. reflexivity. }
  exists d1, c, d2. split; [exact Hd|]. split.
  - subst b. rewrite Forall_map in Hb. rewrite Forall_forall in *.
    intros e He. rewrite <- Hc, <- (Hval e); [auto|].
    rewrite Hd. apply in_or_app; now left.
  - subst a. rewrite Forall_map in Ha. rewrite Forall_forall in *.
    intros e He. rewrite <- Hc, <- (Hval e); [auto|].
    rewrite Hd. apply in_or_app; right; now right.
Qed.

(** *** Floats *)

(** [x <= y] rules out [y < x], on IEEE 754 data. *)
Lemma SFleb_not_SFltb (x y : spec_float) :
  SFleb x y = true -> SFltb y x = false.
Proof.
  unfold SFleb, SFltb.
  destruct x as [sx|sx| |sx mx ex], y as [sy|sy| |sy my ey]; simpl;
    try destruct sx; try destruct sy; simpl; try congruence.
  - rewrite (Z.compare_antisym ex ey).
    destruct (ex ?= ey)%Z; simpl; try congruence.
    change (PosDef.Pos.compare_cont Eq my mx) with (Pos.compare my mx).
    change (PosDef.Pos.compare_cont Eq mx my) with (Pos.compare mx my).
    rewrite (Pos.compare_antisym mx my).
    destruct (Pos.compare mx my); simpl; congruence.
  - rewrite (Z.compare_antisym ex ey).
    destruct (ex ?= ey)%Z; simpl; try congruence.
    change (PosDef.Pos.compare_cont Eq my mx) with (Pos.compare my mx).
    change (PosDef.Pos.compare_cont Eq mx my) with (Pos.compare mx my).
    rewrite (Pos.compare_antisym mx my).
    destruct (Pos.compare mx my); simpl; congruence.
Qed.

(** A confidence of at most 0.3 fails the test [confidence > 0.3]. *)
Lemma at_most_threshold (confidence : float) :
  (confidence <=? 0.3)%float = true -> (0.3 <? confidence)%float = false.
Proof. rewrite leb_spec, ltb_spec. apply SFleb_not_SFltb. Qed.

End PyFacts.

(* ================================================================= *)
(** * The pipeline on concrete worlds *)

Example strip_trims_both_ends :
  Py.strip (Py.lit "  good  morning ") = Py.lit "good  morning" /\
  Py.strip [12288; 12371; 160]%N = [12371]%N.
Proof. split; reflexivity. Qed.

(** Japanese detected at 0.92, "konnichiwa" transcribed, "Hello" returned
    by the translation: the three come back, and Japanese is counted once. *)
Example detected_japanese_is_translated :
  fst (transcribe_and_translate chunk_wav (Py.lit "auto") world_hello fresh)
    = Ok (konnichiwa, Py.lit "Hello", Py.lit "ja") /\
  detected_lang_cache
    (self (snd (transcribe_and_translate chunk_wav (Py.lit "auto") world_hello fresh)))
    = [(Py.lit "ja", 1)] /\
  map call_task (calls (snd (transcribe_and_translate chunk_wav (Py.lit "auto") world_hello fresh)))
    = [task_transcribe; task_transcribe; task_translate].
Proof. repeat split. Qed.

(** Japanese requested, blank transcription: early exit with empty texts,
    one call, memory as before. *)
Example blank_transcription_exits_early :
  transcribe_and_translate chunk_wav (Py.lit "ja") world_silence seasoned
    = (Ok ([], [], Py.lit "ja"),
       {| self := self seasoned;
          calls := [transcription_call chunk_wav (Py.lit "ja") (self seasoned)] |}).
Proof. reflexivity. Qed.

(** The file system cases of the validity gate. *)
Example validity_gate_cases :
  is_usable (world NoFile Raises Raises Raises) chunk_wav = false /\
  is_usable (world StatFails Raises Raises Raises) chunk_wav = false /\
  is_usable (world (FileOfSize 1024) Raises Raises Raises) chunk_wav = false /\
  is_usable (world (FileOfSize 1025) Raises Raises Raises) chunk_wav = true.
Proof. repeat split. Qed.

(* ================================================================= *)
(** * The steps of the pipeline *)

Ltac unfold_monad :=
  unfold bind, ret, raise, try_except, get_self, modify_self, call_model,
    join_segments, with_self in *.

Section Steps.

Variable E : env.
Variable audio_path : Py.str.

(** [is_valid_audio_file] computes [is_usable] and touches nothing. *)
Lemma is_valid_audio_file_spec (s : state) :
  is_valid_audio_file audio_path E s = (Ok (is_usable E audio_path), s).
Proof.
  unfold is_valid_audio_file, path_exists, getsize, is_usable.
  destruct (fs E audio_path); reflexivity.
Qed.

(** What [detect_language] does on a usable chunk, by the answer of the
    model. *)
Lemma detect_language_usable (s : state) :
  is_usable E audio_path = true ->
  detect_language audio_path E s =
    let call := detection_call audio_path (self s) in
    let log := calls s ++ [call] in
    match model_transcribe E (calls s) call with
    | Returns _ info =>
        let lang := Py.getattr (info_language info) (last_detected_lang (self s)) in
        let confidence := Py.getattr (language_probability info) 0.0%float in
        (Ok (lang, confidence),
         {| self := if (0.3 <? confidence)%float
                    then with_last_detected_lang lang (self s) else self s;
            calls := log |})
    | Raises =>
        (Ok (last_detected_lang (self s), 0.0%float), {| self := self s; calls := log |})
    end.
Proof.
  intros Hu. unfold detect_language, bind at 1.
  rewrite is_valid_audio_file_spec, Hu. simpl.
  unfold_monad. simpl.
  destruct (model_transcribe E (calls s) (detection_call audio_path (self s)))
    as [segs info|]; simpl; [|reflexivity].
  destruct (0.3 <? Py.getattr (language_probability info) 0.0)%float; reflexivity.
Qed.

Lemma detect_language_unusable (s : state) :
  is_usable E audio_path = false ->
  detect_language audio_path E s = (Ok (last_detected_lang (self s), 0.0%float), s).
Proof.
  intros Hu. unfold detect_language, bind at 1.
  rewrite is_valid_audio_file_spec, Hu. reflexivity.
Qed.

(** [detect_language] always returns; it writes [last_detected_lang] by
    the confidence it returns, makes no translate call, and leaves the
    rest of the object alone. *)
Lemma detect_language_effect (s : state) :
  exists lang confidence s',
    detect_language audio_path E s = (Ok (lang, confidence), s') /\
    last_detected_lang (self s') =
      (if (0.3 <? confidence)%float then lang else last_detected_lang (self s)) /\
    detected_lang_cache (self s') = detected_lang_cache (self s) /\
    no_vad (self s') = no_vad (self s) /\
    chunk_count (self s') = chunk_count (self s) /\
    translate_calls (calls s') = translate_calls (calls s) /\
    (lang = last_detected_lang (self s) \/
     exists log a segs info,
       model_transcribe E log a = Returns segs info /\ info_language info = Some lang).
Proof.
  destruct (is_usable E audio_path) eqn:Hu.
  - rewrite (detect_language_usable s Hu). cbv zeta.
    destruct (model_transcribe E (calls s) (detection_call audio_path (self s)))
      as [segs info|] eqn:Hm.
    + do 3 eexists. split; [reflexivity|]. simpl.
      destruct (0.3 <? Py.getattr (language_probability info) 0.0)%float; simpl;
        (repeat split; try reflexivity;
         [ unfold translate_calls; rewrite filter_app; simpl; now rewrite app_nil_r
         | destruct (info_language info) eqn:Hl; simpl;
           [right; eauto 6 | now left] ]).
    + do 3 eexists. split; [reflexivity|]. simpl.
      repeat split; try reflexivity; [|now left].
      unfold translate_calls; rewrite filter_app; simpl; now rewrite app_nil_r.
  - rewrite (detect_language_unusable s Hu).
    do 3 eexists. split; [reflexivity|]. simpl. repeat split; now left.
Qed.

End Steps.

Section LanguageBlock.

Variable E : env.
Variable audio_path : Py.str.

(** An explicit language is kept; no detection, no state change. *)
Lemma resolve_explicit (source_lang : Py.str) (s : state) :
  Py.eqb source_lang (Py.lit "auto") = false ->
  resolve_source_lang audio_path source_lang E s = (Ok source_lang, s).
Proof. intros H. unfold resolve_source_lang. rewrite H. reflexivity. Qed.

(** ["auto"], trusted detection: the detected language is adopted and,
    unless it is English, counted. *)
Lemma resolve_auto_confident (s s1 : state) lang confidence :
  detect_language audio_path E s = (Ok (lang, confidence), s1) ->
  (0.3 <? confidence)%float = true ->
  resolve_source_lang audio_path (Py.lit "auto") E s =
    (Ok lang,
     if negb (Py.eqb lang (Py.lit "en"))
     then with_self (cache_increment lang (self s1)) s1 else s1).
Proof.
  intros Hd Hc. unfold resolve_source_lang.
  rewrite PyFacts.eqb_refl. unfold bind at 1. rewrite Hd.
  unfold bind at 1. rewrite Hc, andb_true_r.
  destruct (negb (Py.eqb lang (Py.lit "en"))); reflexivity.
Qed.

(** ["auto"], untrusted detection: memory decides, and is not written. *)
Lemma resolve_auto_unsure (s s1 : state) lang confidence :
  detect_language audio_path E s = (Ok (lang, confidence), s1) ->
  (0.3 <? confidence)%float = false ->
  resolve_source_lang audio_path (Py.lit "auto") E s =
    let cache := detected_lang_cache (self s1) in
    (if Py.truthy cache then
       match Py.max (Py.keys cache) (fun k => Py.get cache k 0) with
       | Some k => Ok k
       | None => Raised
       end
     else Ok (last_detected_lang (self s1)),
     s1).
Proof.
  intros Hd Hc. unfold resolve_source_lang.
  rewrite PyFacts.eqb_refl. unfold bind at 1. rewrite Hd.
  unfold bind at 1. rewrite Hc, andb_false_r.
  unfold_monad. cbv zeta.
  destruct (Py.truthy (detected_lang_cache (self s1))); [|reflexivity].
  destruct (Py.max _ _); reflexivity.
Qed.

End LanguageBlock.

Section TextBlock.

Variable E : env.
Variable audio_path : Py.str.

(** The transcription and translation block, path by path. *)
Lemma transcribe_then_translate_cases (lang : Py.str) (s : state) :
  transcribe_then_translate audio_path lang E s =
    let tc := transcription_call audio_path lang (self s) in
    let s1 := {| self := self s; calls := calls s ++ [tc] |} in
    match model_transcribe E (calls s) tc with
    | Raises => (Raised, s1)
    | Returns segs _ =>
        if seg_raises segs then (Raised, s1)
        else
          let t := Py.strip (Py.join (seg_texts segs)) in
          if Py.is_empty t || Py.eqb lang (Py.lit "en") then (Ok (t, t, lang), s1)
          else
            let trc := translation_call audio_path lang (self s) in
            let s2 := {| self := self s; calls := (calls s ++ [tc]) ++ [trc] |} in
            match model_transcribe E (calls s ++ [tc]) trc with
            | Raises => (Raised, s2)
            | Returns segs' _ =>
                if seg_raises segs' then (Raised, s2)
                else
                  let t' := Py.strip (Py.join (seg_texts segs')) in
                  (Ok (t, if Py.is_empty t' && negb (Py.is_empty t) then t else t', lang),
                   s2)
            end
    end.
Proof.
  unfold transcribe_then_translate. unfold_monad. cbv zeta. simpl.
  destruct (model_transcribe E (calls s) _) as [segs info|]; [|reflexivity].
  destruct (seg_raises segs); [reflexivity|]. simpl.
  destruct (Py.is_empty _ || Py.eqb lang _); [reflexivity|]. simpl.
  destruct (model_transcribe E (calls s ++ _) _) as [segs' info'|]; [|reflexivity].
  destruct (seg_raises segs'); reflexivity.
Qed.

(** The block never writes the object. *)
Lemma transcribe_then_translate_self (lang : Py.str) (s : state) :
  self (snd (transcribe_then_translate audio_path lang E s)) = self s.
Proof.
  rewrite transcribe_then_translate_cases. cbv zeta.
  destruct (model_transcribe E (calls s) _) as [segs info|]; [|reflexivity].
  destruct (seg_raises segs); [reflexivity|].
  destruct (Py.is_empty _ || Py.eqb lang _); [reflexivity|].
  destruct (model_transcribe E (calls s ++ _) _) as [segs' info'|]; [|reflexivity].
  destruct (seg_raises segs'); reflexivity.
Qed.

(** On a usable chunk the pipeline is its language block followed by the
    guarded text block. *)
Lemma transcribe_and_translate_usable (source_lang lang : Py.str) (s s1 : state) :
  is_usable E audio_path = true ->
  resolve_source_lang audio_path source_lang E s = (Ok lang, s1) ->
  transcribe_and_translate audio_path source_lang E s =
    try_except (transcribe_then_translate audio_path lang) (ret ([], [], lang)) E s1.
Proof.
  intros Hu Hr. unfold transcribe_and_translate, bind at 1.
  rewrite is_valid_audio_file_spec, Hu. simpl.
  unfold try_except at 1, bind at 1. rewrite Hr.
  unfold try_except, ret.
  destruct (transcribe_then_translate audio_path lang E s1) as [[r|] s2]; reflexivity.
Qed.

Lemma transcribe_and_translate_unusable (source_lang : Py.str) (s : state) :
  is_usable E audio_path = false ->
  transcribe_and_translate audio_path source_lang E s = (Ok ([], [], source_lang), s).
Proof.
  intros Hu. unfold transcribe_and_translate, bind at 1.
  rewrite is_valid_audio_file_spec, Hu. reflexivity.
Qed.

End TextBlock.

Section Memory.

Lemma accumulates_refl (d : Py.dict) : accumulates d d.
Proof. intros k c H. exists c. split; [assumption | lia]. Qed.

Lemma accumulates_trans (d1 d2 d3 : Py.dict) :
  accumulates d1 d2 -> accumulates d2 d3 -> accumulates d1 d3.
Proof.
  intros H12 H23 k c H.
  destruct (H12 k c H) as (c2 & H2 & Hle2).
  destruct (H23 k c2 H2) as (c3 & H3 & Hle3).
  exists c3. split; [assumption | lia].
Qed.

(** Counting one more observation of [k]. *)
Lemma cache_increment_lookup (a : AudioTranslator) (k : Py.str) :
  Py.lookup (detected_lang_cache (cache_increment k a)) k =
    Some (Py.get (detected_lang_cache a) k 0 + 1).
Proof. apply PyFacts.lookup_setitem_same. Qed.

Lemma cache_increment_accumulates (a : AudioTranslator) (k : Py.str) :
  accumulates (detected_lang_cache a) (detected_lang_cache (cache_increment k a)).
Proof.
  intros k0 c H. simpl.
  destruct (Py.eqb k0 k) eqn:Hk.
  - apply PyFacts.eqb_eq in Hk; subst k0.
    rewrite PyFacts.lookup_setitem_same. unfold Py.get. rewrite H.
    eexists; split; [reflexivity | lia].
  - apply PyFacts.eqb_neq in Hk.
    rewrite PyFacts.lookup_setitem_other by assumption.
    exists c; split; [assumption | lia].
Qed.

(** [max] answers with one of the keys it was given. *)
Lemma max_loop_in (f : Py.str -> Z) (rest : list Py.str) (best : Py.str) (v : Z) :
  In (Py.max_loop f best v rest) (best :: rest).
Proof.
  revert best v. induction rest as [|k rest IH]; intros best v; simpl.
  - now left.
  - destruct (v <? f k).
    + right. apply IH.
    + destruct (IH best v) as [H|H]; [now left | right; now right].
Qed.

Lemma max_truthy (d : Py.dict) (f : Py.str -> Z) :
  Py.truthy d = true ->
  exists k, Py.max (Py.keys d) f = Some k /\ In k (Py.keys d).
Proof.
  destruct d as [|[k0 v0] d]; [discriminate|]. intros _. simpl.
  eexists; split; [reflexivity|]. apply max_loop_in.
Qed.

End Memory.

Section Effects.

Variable E : env.
Variable audio_path : Py.str.

(** The language block always leaves with a language; it makes no
    translate call, and the table only accumulates. *)
Lemma resolve_source_lang_effect (source_lang : Py.str) (s : state) :
  exists lang s1,
    resolve_source_lang audio_path source_lang E s = (Ok lang, s1) /\
    translate_calls (calls s1) = translate_calls (calls s) /\
    accumulates (detected_lang_cache (self s)) (detected_lang_cache (self s1)).
Proof.
  destruct (Py.eqb source_lang (Py.lit "auto")) eqn:Ha.
  - apply PyFacts.eqb_eq in Ha; subst source_lang.
    destruct (detect_language_effect E audio_path s)
      as (lang & c & s1 & Hd & _ & Hcache & _ & _ & Htr & _).
    destruct (0.3 <? c)%float eqn:Hc.
    + rewrite (resolve_auto_confident E audio_path s s1 lang c Hd Hc).
      do 2 eexists. split; [reflexivity|].
      destruct (negb (Py.eqb lang (Py.lit "en"))); simpl.
      * split; [assumption|]. rewrite <- Hcache. apply cache_increment_accumulates.
      * split; [assumption|]. rewrite Hcache. apply accumulates_refl.
    + rewrite (resolve_auto_unsure E audio_path s s1 lang c Hd Hc). cbv zeta.
      destruct (Py.truthy (detected_lang_cache (self s1))) eqn:Ht.
      * destruct (max_truthy _ (fun k => Py.get (detected_lang_cache (self s1)) k 0) Ht)
          as (k & -> & _).
        do 2 eexists. split; [reflexivity|].
        split; [assumption|]. rewrite Hcache. apply accumulates_refl.
      * do 2 eexists. split; [reflexivity|].
        split; [assumption|]. rewrite Hcache. apply accumulates_refl.
  - rewrite (resolve_explicit E audio_path source_lang s Ha).
    do 2 eexists. split; [reflexivity|]. split; [reflexivity | apply accumulates_refl].
Qed.

(** The language block keeps the table a dict. *)
Lemma resolve_source_lang_dict_wf (source_lang lang : Py.str) (s s1 : state) :
  dict_wf (detected_lang_cache (self s)) ->
  resolve_source_lang audio_path source_lang E s = (Ok lang, s1) ->
  dict_wf (detected_lang_cache (self s1)).
Proof.
  intros Hwf Hr.
  destruct (Py.eqb source_lang (Py.lit "auto")) eqn:Ha.
  - apply PyFacts.eqb_eq in Ha; subst source_lang.
    destruct (detect_language_effect E audio_path s)
      as (dl & c & sd & Hd & _ & Hcache & _).
    destruct (0.3 <? c)%float eqn:Hc.
    + rewrite (resolve_auto_confident E audio_path s sd dl c Hd Hc) in Hr.
      inversion Hr; subst lang s1.
      destruct (negb (Py.eqb dl (Py.lit "en"))); simpl.
      * apply PyFacts.dict_wf_setitem. now rewrite Hcache.
      * now rewrite Hcache.
    + rewrite (resolve_auto_unsure E audio_path s sd dl c Hd Hc) in Hr.
      inversion Hr; subst s1. now rewrite Hcache.
  - rewrite (resolve_explicit E audio_path source_lang s Ha) in Hr.
    now inversion Hr; subst.
Qed.

(** After the language block nothing writes the object any more. *)
Lemma transcribe_and_translate_self (source_lang lang : Py.str) (s s1 : state) :
  is_usable E audio_path = true ->
  resolve_source_lang audio_path source_lang E s = (Ok lang, s1) ->
  self (snd (transcribe_and_translate audio_path source_lang E s)) = self s1.
Proof.
  intros Hu Hr.
  rewrite (transcribe_and_translate_usable E audio_path source_lang lang s s1 Hu Hr).
  unfold try_except, ret.
  pose proof (transcribe_then_translate_self E audio_path lang s1) as Hs.
  destruct (transcribe_then_translate audio_path lang E s1) as [[r|] s2]; exact Hs.
Qed.

End Effects.

Section GuardedTextBlock.

Variable E : env.
Variable audio_path : Py.str.

(** The text block under its handler: it returns, with the language it
    was given, and does not write the object. *)
Lemma guarded_text_block_returns (lang : Py.str) (s1 : state) :
  exists r s2,
    try_except (transcribe_then_translate audio_path lang) (ret ([], [], lang)) E s1
      = (Ok r, s2) /\
    resolved_language r = lang /\
    self s2 = self s1.
Proof.
  unfold try_except, ret.
  pose proof (transcribe_then_translate_self E audio_path lang s1) as Hs.
  rewrite transcribe_then_translate_cases in *. cbv zeta in *.
  destruct (model_transcribe E (calls s1) _) as [segs info|];
    [|do 2 eexists; repeat split; exact Hs].
  destruct (seg_raises segs); [do 2 eexists; repeat split; exact Hs|].
  destruct (Py.is_empty _ || Py.eqb lang _); [do 2 eexists; repeat split; exact Hs|].
  destruct (model_transcribe E (calls s1 ++ _) _) as [segs' info'|];
    [|do 2 eexists; repeat split; exact Hs].
  destruct (seg_raises segs'); do 2 eexists; repeat split; exact Hs.
Qed.

(** Without the handler the text block does raise when the model does. *)
Lemma text_block_raises_with_model (lang : Py.str) (s1 : state) :
  model_transcribe E (calls s1) (transcription_call audio_path lang (self s1)) = Raises ->
  fst (transcribe_then_translate audio_path lang E s1) = Raised.
Proof.
  intros Hm. rewrite transcribe_then_translate_cases. cbv zeta. now rewrite Hm.
Qed.

(** What the handler answers when the text block raises: empty texts and
    the resolved language. *)
Lemma caught_failure_yields_empty_result (source_lang lang : Py.str) (s s1 : state) :
  is_usable E audio_path = true ->
  resolve_source_lang audio_path source_lang E s = (Ok lang, s1) ->
  fst (transcribe_then_translate audio_path lang E s1) = Raised ->
  fst (transcribe_and_translate audio_path source_lang E s) = Ok ([], [], lang).
Proof.
  intros Hu Hr Hraised.
  rewrite (transcribe_and_translate_usable E audio_path source_lang lang s s1 Hu Hr).
  unfold try_except, ret.
  destruct (transcribe_then_translate audio_path lang E s1) as [[r|] s2];
    [discriminate | reflexivity].
Qed.

(** One invocation keeps the table a dict. *)
Lemma transcribe_and_translate_dict_wf (source_lang : Py.str) (s : state) :
  dict_wf (detected_lang_cache (self s)) ->
  dict_wf (detected_lang_cache (self (snd (transcribe_and_translate audio_path source_lang E s)))).
Proof.
  intros Hwf. destruct (is_usable E audio_path) eqn:Hu.
  - destruct (resolve_source_lang_effect E audio_path source_lang s) as (lang & s1 & Hr & _).
    rewrite (transcribe_and_translate_self E audio_path source_lang lang s s1 Hu Hr).
    exact (resolve_source_lang_dict_wf E audio_path source_lang lang s s1 Hwf Hr).
  - now rewrite (transcribe_and_translate_unusable E audio_path source_lang s Hu).
Qed.

(** One invocation only lets the table accumulate. *)
Lemma transcribe_and_translate_accumulates (source_lang : Py.str) (s : state) :
  accumulates (detected_lang_cache (self s))
    (detected_lang_cache (self (snd (transcribe_and_translate audio_path source_lang E s)))).
Proof.
  destruct (is_usable E audio_path) eqn:Hu.
  - destruct (resolve_source_lang_effect E audio_path source_lang s)
      as (lang & s1 & Hr & _ & Hacc).
    now rewrite (transcribe_and_translate_self E audio_path source_lang lang s s1 Hu Hr).
  - rewrite (transcribe_and_translate_unusable E audio_path source_lang s Hu).
    apply accumulates_refl.
Qed.

End GuardedTextBlock.

(* ================================================================= *)
(** * The properties of the specification *)

(** C5: when the validity predicate is false for the chunk (file missing,
    or not larger than 1024 bytes), the pipeline returns empty original and
    translated text and makes no call to the model: the call log, like the
    whole state, is as before. *)
Theorem unusable_chunk_short_circuits
    (E : env) (s : state) (audio_path source_lang : Py.str) :
  is_usable E audio_path = false ->
  exists r s',
    transcribe_and_translate audio_path source_lang E s = (Ok r, s') /\
    original_text r = [] /\
    translated_text r = [] /\
    calls s' = calls s /\
    s' = s.
Proof.
  intros Hu. rewrite (transcribe_and_translate_unusable E audio_path source_lang s Hu).
  do 2 eexists. repeat split.
Qed.

Lemma unusable_chunk_short_circuits_witness :
  is_usable world_tiny chunk_wav = false /\
  exists r s',
    transcribe_and_translate chunk_wav (Py.lit "auto") world_tiny fresh = (Ok r, s') /\
    original_text r = [] /\ translated_text r = [] /\ calls s' = calls fresh /\ s' = fresh.
Proof.
  split; [reflexivity|].
  apply (unusable_chunk_short_circuits world_tiny fresh chunk_wav (Py.lit "auto")).
  reflexivity.
Defined.

(** What makes a chunk unusable, in terms of the file system. *)
Lemma is_usable_false_iff (E : env) (chunk : Py.str) :
  is_usable E chunk = false <->
  fs E chunk = NoFile \/ fs E chunk = StatFails \/
  exists n, fs E chunk = FileOfSize n /\ n <= 1024.
Proof.
  unfold is_usable. destruct (fs E chunk) as [|n|]; split; intros H; auto;
    try (destruct H as [H|[H|(m & H & _)]]; discriminate).
  - apply Z.ltb_ge in H. right; right. eauto.
  - destruct H as [H|[H|(m & H & Hm)]]; try discriminate.
    inversion H; subst. now apply Z.ltb_ge.
Qed.

(** C7: with an explicit (non-"auto") requested language the pipeline
    leaves Language Memory as it found it, frequency table and last
    confirmed language alike, whatever the model does. *)
Theorem explicit_language_keeps_memory
    (E : env) (s : state) (audio_path source_lang : Py.str) :
  source_lang <> Py.lit "auto" ->
  let s' := snd (transcribe_and_translate audio_path source_lang E s) in
  detected_lang_cache (self s') = detected_lang_cache (self s) /\
  last_detected_lang (self s') = last_detected_lang (self s).
Proof.
  intros Hne s'. subst s'.
  apply PyFacts.eqb_neq in Hne.
  destruct (is_usable E audio_path) eqn:Hu.
  - rewrite (transcribe_and_translate_self E audio_path source_lang source_lang s s Hu
               (resolve_explicit E audio_path source_lang s Hne)).
    split; reflexivity.
  - rewrite (transcribe_and_translate_unusable E audio_path source_lang s Hu).
    split; reflexivity.
Qed.

Lemma explicit_language_keeps_memory_witness :
  Py.lit "ko" <> Py.lit "auto" /\
  detected_lang_cache
    (self (snd (transcribe_and_translate chunk_wav (Py.lit "ko") world_translation_fails seasoned)))
    = detected_lang_cache (self seasoned) /\
  last_detected_lang
    (self (snd (transcribe_and_translate chunk_wav (Py.lit "ko") world_translation_fails seasoned)))
    = last_detected_lang (self seasoned).
Proof.
  split; [discriminate|].
  apply (explicit_language_keeps_memory world_translation_fails seasoned chunk_wav (Py.lit "ko")).
  discriminate.
Defined.

(** C9: for every chunk and every way the model may fail (at detection, at
    transcription, at translation, or while its segments are read), the
    pipeline invocation returns a result and raises nothing. *)
Theorem transcribe_and_translate_never_raises
    (E : env) (s : state) (audio_path source_lang : Py.str) :
  exists r s', transcribe_and_translate audio_path source_lang E s = (Ok r, s').
Proof.
  destruct (is_usable E audio_path) eqn:Hu.
  - destruct (resolve_source_lang_effect E audio_path source_lang s) as (lang & s1 & Hr & _).
    rewrite (transcribe_and_translate_usable E audio_path source_lang lang s s1 Hu Hr).
    destruct (guarded_text_block_returns E audio_path lang s1) as (r & s2 & Heq & _).
    eauto.
  - rewrite (transcribe_and_translate_unusable E audio_path source_lang s Hu). eauto.
Qed.

(** C8: over any sequence of pipeline invocations on one translator, every
    language in the frequency table stays in it and its count does not
    decrease. *)
Theorem frequency_table_only_accumulates (invs : list invocation) (s : state) :
  accumulates (detected_lang_cache (self s))
    (detected_lang_cache (self (run_invocations invs s))).
Proof.
  revert s. induction invs as [|i invs IH]; intros s; simpl.
  - apply accumulates_refl.
  - eapply accumulates_trans; [|apply IH].
    apply transcribe_and_translate_accumulates.
Qed.

(** C10: when "auto" is requested and detection returns a language other
    than "en" with confidence above 0.3, that language's count is one more
    than before when the invocation ends, whatever the transcription and
    translation calls do afterwards, raising included. *)
Theorem increment_survives_later_failure
    (E : env) (s : state) (audio_path lang : Py.str) (confidence : float)
    (segs : segments) (info : transcription_info) :
  is_usable E audio_path = true ->
  model_transcribe E (calls s) (detection_call audio_path (self s)) = Returns segs info ->
  info_language info = Some lang ->
  language_probability info = Some confidence ->
  (0.3 <? confidence)%float = true ->
  lang <> Py.lit "en" ->
  let s' := snd (transcribe_and_translate audio_path (Py.lit "auto") E s) in
  Py.lookup (detected_lang_cache (self s')) lang
    = Some (Py.get (detected_lang_cache (self s)) lang 0 + 1).
Proof.
  intros Hu Hm Hl Hp Hc Hne s'. subst s'.
  pose proof (detect_language_usable E audio_path s Hu) as Hd.
  cbv zeta in Hd. rewrite Hm, Hl, Hp in Hd. simpl in Hd. rewrite Hc in Hd.
  pose proof (resolve_auto_confident E audio_path s _ lang confidence Hd Hc) as Hr.
  apply PyFacts.eqb_neq in Hne. rewrite Hne in Hr. simpl in Hr.
  rewrite (transcribe_and_translate_self E audio_path _ lang s _ Hu Hr).
  exact (cache_increment_lookup (with_last_detected_lang lang (self s)) lang).
Qed.

Lemma increment_survives_later_failure_witness :
  (is_usable world_fails_after_detection chunk_wav = true /\
   model_transcribe world_fails_after_detection (calls seasoned)
     (detection_call chunk_wav (self seasoned))
     = Returns (said []) (heard (Py.lit "ja") 0.92%float) /\
   (0.3 <? 0.92)%float = true /\
   Py.lit "ja" <> Py.lit "en") /\
  fst (transcribe_and_translate chunk_wav (Py.lit "auto") world_fails_after_detection seasoned)
    = Ok ([], [], Py.lit "ja") /\
  Py.lookup
    (detected_lang_cache
       (self (snd (transcribe_and_translate chunk_wav (Py.lit "auto")
                     world_fails_after_detection seasoned))))
    (Py.lit "ja") = Some (Py.get (detected_lang_cache (self seasoned)) (Py.lit "ja") 0 + 1).
Proof.
  split; [|split].
  - repeat split; discriminate.
  - reflexivity.
  - apply (increment_survives_later_failure world_fails_after_detection seasoned chunk_wav
             (Py.lit "ja") 0.92%float (said []) (heard (Py.lit "ja") 0.92%float));
      try reflexivity; discriminate.
Defined.

(** C6: when the text obtained from the transcription segments, joined and
    trimmed, is empty, or the resolved language is "en", the result carries
    that text as both original and translated text, and the invocation has
    made no translate-task call. *)
Theorem early_exit_skips_translation
    (E : env) (s s1 : state) (audio_path source_lang lang : Py.str)
    (segs : segments) (info : transcription_info) :
  is_usable E audio_path = true ->
  resolve_source_lang audio_path source_lang E s = (Ok lang, s1) ->
  model_transcribe E (calls s1) (transcription_call audio_path lang (self s1))
    = Returns segs info ->
  seg_raises segs = false ->
  Py.strip (Py.join (seg_texts segs)) = [] \/ lang = Py.lit "en" ->
  exists r s',
    transcribe_and_translate audio_path source_lang E s = (Ok r, s') /\
    original_text r = Py.strip (Py.join (seg_texts segs)) /\
    translated_text r = original_text r /\
    resolved_language r = lang /\
    translate_calls (calls s') = translate_calls (calls s).
Proof.
  intros Hu Hr Hm Hs Hexit.
  rewrite (transcribe_and_translate_usable E audio_path source_lang lang s s1 Hu Hr).
  unfold try_except. rewrite transcribe_then_translate_cases. cbv zeta.
  rewrite Hm, Hs.
  assert (Py.is_empty (Py.strip (Py.join (seg_texts segs)))
          || Py.eqb lang (Py.lit "en") = true) as ->.
  { apply orb_true_iff. destruct Hexit as [H|H].
    - left. now apply PyFacts.is_empty_true.
    - right. now apply PyFacts.eqb_eq. }
  do 2 eexists. split; [reflexivity|]. simpl. repeat split.
  destruct (resolve_source_lang_effect E audio_path source_lang s) as (l' & s1' & Hr' & Htr & _).
  rewrite Hr in Hr'. inversion Hr'; subst l' s1'.
  unfold translate_calls in *. rewrite filter_app. simpl. now rewrite app_nil_r.
Qed.

Lemma early_exit_skips_translation_witness :
  exists r s',
    transcribe_and_translate chunk_wav (Py.lit "auto") world_unsure fresh = (Ok r, s') /\
    original_text r = Py.lit "good morning" /\
    translated_text r = original_text r /\
    resolved_language r = Py.lit "en" /\
    translate_calls (calls s') = translate_calls (calls fresh).
Proof.
  apply (early_exit_skips_translation world_unsure fresh
           {| self := init false; calls := [detection_call chunk_wav (init false)] |}
           chunk_wav (Py.lit "auto") (Py.lit "en")
           (said [Py.lit " good "; Py.lit "morning "]) (heard (Py.lit "en") 1%float));
    try reflexivity.
  right; reflexivity.
Defined.

(** C4: when "auto" is requested and the detection confidence is at most
    0.3, the resolved language is the stable argmax of the frequency table
    (the greatest count, the first inserted among equals) if the table is
    not empty, and the last confirmed language if it is. *)
Theorem low_confidence_resolves_from_memory
    (E : env) (s s1 : state) (audio_path detected : Py.str) (confidence : float) :
  is_usable E audio_path = true ->
  dict_wf (detected_lang_cache (self s)) ->
  detect_language audio_path E s = (Ok (detected, confidence), s1) ->
  (confidence <=? 0.3)%float = true ->
  exists r s',
    transcribe_and_translate audio_path (Py.lit "auto") E s = (Ok r, s') /\
    (detected_lang_cache (self s) <> [] ->
     stable_argmax (detected_lang_cache (self s)) (resolved_language r)) /\
    (detected_lang_cache (self s) = [] ->
     resolved_language r = last_detected_lang (self s)).
Proof.
  intros Hu Hwf Hd Hle.
  apply PyFacts.at_most_threshold in Hle.
  destruct (detect_language_effect E audio_path s)
    as (l' & c' & s1' & Hd' & Hlast & Hcache & _).
  rewrite Hd in Hd'. inversion Hd'; subst l' c' s1'. clear Hd'.
  rewrite Hle in Hlast.
  pose proof (resolve_auto_unsure E audio_path s s1 detected confidence Hd Hle) as Hr.
  cbv zeta in Hr. rewrite Hcache, Hlast in Hr.
  destruct (Py.truthy (detected_lang_cache (self s))) eqn:Ht.
  - destruct (PyFacts.max_keys_stable_argmax _ Hwf Ht) as (k & Hmax & Harg).
    rewrite Hmax in Hr.
    rewrite (transcribe_and_translate_usable E audio_path _ k s s1 Hu Hr).
    destruct (guarded_text_block_returns E audio_path k s1) as (r & s2 & Heq & Hlang & _).
    exists r, s2. split; [assumption|]. rewrite Hlang. split; [auto|].
    intros Hnil. rewrite Hnil in Ht. discriminate.
  - rewrite (transcribe_and_translate_usable E audio_path _ _ s s1 Hu Hr).
    destruct (guarded_text_block_returns E audio_path (last_detected_lang (self s)) s1)
      as (r & s2 & Heq & Hlang & _).
    exists r, s2. split; [assumption|]. rewrite Hlang. split; [|auto].
    intros Hnn. destruct (detected_lang_cache (self s)); [congruence | discriminate].
Qed.

Lemma low_confidence_resolves_from_memory_witness :
  (is_usable world_unsure chunk_wav = true /\
   dict_wf (detected_lang_cache (self seasoned)) /\
   (0.1 <=? 0.3)%float = true) /\
  exists r s',
    transcribe_and_translate chunk_wav (Py.lit "auto") world_unsure seasoned = (Ok r, s') /\
    (detected_lang_cache (self seasoned) <> [] ->
     stable_argmax (detected_lang_cache (self seasoned)) (resolved_language r)) /\
    (detected_lang_cache (self seasoned) = [] ->
     resolved_language r = last_detected_lang (self seasoned)).
Proof.
  assert (Hwf : dict_wf (detected_lang_cache (self seasoned))).
  { repeat constructor; simpl; intuition discriminate. }
  split; [repeat split; assumption|].
  apply (low_confidence_resolves_from_memory world_unsure seasoned
           {| self := self seasoned; calls := [detection_call chunk_wav (self seasoned)] |}
           chunk_wav (Py.lit "ja") 0.1%float);
    [reflexivity | exact Hwf | reflexivity | reflexivity].
Defined.

(** With Japanese and Korean both counted twice, Japanese, counted first,
    is the one resolved. *)
Example tie_goes_to_first_inserted :
  fst (transcribe_and_translate chunk_wav (Py.lit "auto") world_unsure seasoned)
    = Ok (Py.lit "good morning", Py.lit "Good morning.", Py.lit "ja").
Proof. reflexivity. Qed.

Section Concrete.

Variable E : env.
Variable audio_path : Py.str.
Hypothesis backend_concrete : reports_concrete E.

(** Counting a concrete language keeps the memory concrete. *)
Lemma cache_increment_keys_concrete (a : AudioTranslator) (k : Py.str) :
  k <> Py.lit "auto" ->
  Forall (fun k => k <> Py.lit "auto") (Py.keys (detected_lang_cache a)) ->
  Forall (fun k => k <> Py.lit "auto") (Py.keys (detected_lang_cache (cache_increment k a))).
Proof.
  intros Hk Ha. simpl. rewrite PyFacts.keys_setitem.
  destruct (Py.lookup _ k); [assumption|].
  apply Forall_app; split; [assumption | repeat constructor; assumption].
Qed.

(** The language block never leaves with ["auto"], and keeps the memory
    concrete. *)
Lemma resolve_source_lang_concrete (source_lang lang : Py.str) (s s1 : state) :
  memory_concrete (self s) ->
  resolve_source_lang audio_path source_lang E s = (Ok lang, s1) ->
  (source_lang = Py.lit "auto" -> lang <> Py.lit "auto") /\
  memory_concrete (self s1).
Proof.
  intros [Hlast0 Hkeys0] Hr.
  destruct (Py.eqb source_lang (Py.lit "auto")) eqn:Ha.
  - apply PyFacts.eqb_eq in Ha; subst source_lang.
    destruct (detect_language_effect E audio_path s)
      as (dl & c & sd & Hd & Hlast & Hcache & _ & _ & _ & Hsrc).
    assert (Hdl : dl <> Py.lit "auto").
    { destruct Hsrc as [->|(log & a & segs & info & Hm & Hl)]; [assumption|].
      pose proof (backend_concrete log a segs info Hm) as Hc. congruence. }
    destruct (0.3 <? c)%float eqn:Hc.
    + rewrite (resolve_auto_confident E audio_path s sd dl c Hd Hc) in Hr.
      inversion Hr; subst lang s1. clear Hr.
      split; [auto|].
      destruct (negb (Py.eqb dl (Py.lit "en"))); unfold memory_concrete; simpl.
      * split; [now rewrite Hlast|].
        apply (cache_increment_keys_concrete (self sd) dl Hdl). now rewrite Hcache.
      * split; [now rewrite Hlast | now rewrite Hcache].
    + rewrite (resolve_auto_unsure E audio_path s sd dl c Hd Hc) in Hr. cbv zeta in Hr.
      assert (Hmem : memory_concrete (self sd)).
      { split; [now rewrite Hlast | now rewrite Hcache]. }
      destruct (Py.truthy (detected_lang_cache (self sd))) eqn:Ht.
      * destruct (max_truthy _ (fun k => Py.get (detected_lang_cache (self sd)) k 0) Ht)
          as (k & Hmax & Hin).
        rewrite Hmax in Hr. inversion Hr; subst lang s1.
        split; [|assumption]. intros _.
        destruct Hmem as [_ Hkeys]. rewrite Forall_forall in Hkeys. auto.
      * inversion Hr; subst lang s1. split; [|assumption].
        intros _. apply Hmem.
  - rewrite (resolve_explicit E audio_path source_lang s Ha) in Hr.
    inversion Hr; subst lang s1. split; [|split; assumption].
    intros ->. discriminate.
Qed.

End Concrete.

(** A translator out of [__init__] holds no ["auto"]. *)
Lemma init_memory_concrete (b : bool) : memory_concrete (init b).
Proof. split; [discriminate | constructor]. Qed.

(** C1 (amended): on a usable chunk, or with an explicit requested
    language, and with a backend that reports concrete language codes, an
    invocation started with no "auto" in Language Memory returns a resolved
    language that is not "auto", on the caught-failure path too, and leaves
    no "auto" in Language Memory. *)
Theorem resolved_language_concrete
    (E : env) (s : state) (audio_path source_lang : Py.str) :
  reports_concrete E ->
  memory_concrete (self s) ->
  is_usable E audio_path = true \/ source_lang <> Py.lit "auto" ->
  exists r s',
    transcribe_and_translate audio_path source_lang E s = (Ok r, s') /\
    resolved_language r <> Py.lit "auto" /\
    memory_concrete (self s').
Proof.
  intros HE Hmem Hcase.
  destruct (is_usable E audio_path) eqn:Hu.
  - destruct (resolve_source_lang_effect E audio_path source_lang s) as (lang & s1 & Hr & _).
    destruct (resolve_source_lang_concrete E audio_path HE source_lang lang s s1 Hmem Hr)
      as [Hlang Hmem1].
    rewrite (transcribe_and_translate_usable E audio_path source_lang lang s s1 Hu Hr).
    destruct (guarded_text_block_returns E audio_path lang s1) as (r & s2 & Heq & Hl & Hs).
    exists r, s2. split; [assumption|]. rewrite Hl, Hs. split; [|assumption].
    destruct (Py.eqb source_lang (Py.lit "auto")) eqn:Ha.
    + apply PyFacts.eqb_eq in Ha. auto.
    + rewrite (resolve_explicit E audio_path source_lang s Ha) in Hr.
      inversion Hr; subst. now apply PyFacts.eqb_neq.
  - destruct Hcase as [?|Hne]; [discriminate|].
    rewrite (transcribe_and_translate_unusable E audio_path source_lang s Hu).
    do 2 eexists. split; [reflexivity|]. split; assumption.
Qed.

(** The backends of the concrete worlds report concrete codes. *)
Lemma world_reports_concrete (st : file_status) (detection transcription translation : outcome) :
  (forall segs info, detection = Returns segs info ->
                     info_language info <> Some (Py.lit "auto")) ->
  (forall segs info, transcription = Returns segs info ->
                     info_language info <> Some (Py.lit "auto")) ->
  (forall segs info, translation = Returns segs info ->
                     info_language info <> Some (Py.lit "auto")) ->
  reports_concrete (world st detection transcription translation).
Proof.
  intros Hd Ht Hl log a segs info. simpl. unfold backend.
  destruct (call_task a), (language a); eauto.
Qed.

Lemma world_translation_fails_concrete : reports_concrete world_translation_fails.
Proof.
  apply world_reports_concrete; intros segs info H; inversion H; discriminate.
Qed.

Lemma resolved_language_concrete_witness :
  (reports_concrete world_translation_fails /\
   memory_concrete (self fresh) /\
   (is_usable world_translation_fails chunk_wav = true \/ Py.lit "auto" <> Py.lit "auto")) /\
  exists r s',
    transcribe_and_translate chunk_wav (Py.lit "auto") world_translation_fails fresh
      = (Ok r, s') /\
    resolved_language r <> Py.lit "auto" /\
    memory_concrete (self s').
Proof.
  split.
  - split; [exact world_translation_fails_concrete|].
    split; [exact (init_memory_concrete false) | left; reflexivity].
  - apply (resolved_language_concrete world_translation_fails fresh chunk_wav (Py.lit "auto")).
    + exact world_translation_fails_concrete.
    + exact (init_memory_concrete false).
    + left; reflexivity.
Defined.

(** C1, as stated, fails: asked for "auto" on an unusable chunk, the
    pipeline returns "auto" as the resolved language. *)
Lemma never_auto_fails_on_unusable_chunk :
  transcribe_and_translate chunk_wav (Py.lit "auto") world_tiny fresh
    = (Ok ([], [], Py.lit "auto"), fresh) /\
  ~ never_auto_as_stated world_tiny fresh chunk_wav (Py.lit "auto").
Proof.
  split; [reflexivity|].
  intros H. apply (H ([], [], Py.lit "auto") fresh); reflexivity.
Qed.

(** C2 (amended): when the transcription gave non-empty text and the
    translation call raises, the pipeline still returns a result; both its
    original and its translated text are empty, next to the resolved
    language.  The fallback to the original text applies to a translation
    call that returns empty text, not to one that raises. *)
Theorem translation_failure_yields_empty_result
    (E : env) (s s1 : state) (audio_path source_lang lang t : Py.str) :
  translate_raises_after_text E s audio_path source_lang lang t s1 ->
  exists r s',
    transcribe_and_translate audio_path source_lang E s = (Ok r, s') /\
    original_text r = [] /\
    translated_text r = [] /\
    resolved_language r = lang.
Proof.
  intros (Hu & Hr & (segs & info & Hm & Hs & Ht) & Hne & Hlang & Hraise).
  rewrite (transcribe_and_translate_usable E audio_path source_lang lang s s1 Hu Hr).
  unfold try_except. rewrite transcribe_then_translate_cases. cbv zeta.
  rewrite Hm, Hs, Ht.
  assert (Py.is_empty t || Py.eqb lang (Py.lit "en") = false) as ->.
  { apply orb_false_iff. split.
    - destruct t; [congruence | reflexivity].
    - now apply PyFacts.eqb_neq. }
  rewrite Hraise. do 2 eexists. repeat split.
Qed.

(** Japanese requested, "konnichiwa" transcribed, translation raising. *)
Lemma translation_fails_after_konnichiwa :
  translate_raises_after_text world_translation_fails fresh chunk_wav
    (Py.lit "ja") (Py.lit "ja") konnichiwa fresh.
Proof.
  split; [reflexivity|]. split; [reflexivity|]. split.
  - exists (said [konnichiwa]), (heard (Py.lit "ja") 1%float). repeat split.
  - split; [discriminate|]. split; [discriminate | reflexivity].
Defined.

Lemma translation_failure_yields_empty_result_witness :
  translate_raises_after_text world_translation_fails fresh chunk_wav
    (Py.lit "ja") (Py.lit "ja") konnichiwa fresh /\
  exists r s',
    transcribe_and_translate chunk_wav (Py.lit "ja") world_translation_fails fresh
      = (Ok r, s') /\
    original_text r = [] /\ translated_text r = [] /\ resolved_language r = Py.lit "ja".
Proof.
  split; [exact translation_fails_after_konnichiwa|].
  apply (translation_failure_yields_empty_result world_translation_fails fresh fresh
           chunk_wav (Py.lit "ja") (Py.lit "ja") konnichiwa).
  exact translation_fails_after_konnichiwa.
Defined.

(** C2, as stated, fails: the translated text of the result is empty, not
    the transcribed "konnichiwa". *)
Lemma translation_failure_drops_original_text :
  fst (transcribe_and_translate chunk_wav (Py.lit "ja") world_translation_fails fresh)
    = Ok ([], [], Py.lit "ja") /\
  ~ translate_fallback_as_stated world_translation_fails fresh chunk_wav (Py.lit "ja").
Proof.
  split; [reflexivity|].
  intros H.
  destruct (H (Py.lit "ja") konnichiwa fresh translation_fails_after_konnichiwa)
    as (r & s' & Heq & Ht).
  vm_compute in Heq. inversion Heq; subst r. discriminate Ht.
Qed.

(** C3 (amended): [detect_language] sets the last confirmed language to
    the detected language exactly when the confidence it returns exceeds
    0.3, whether or not that language is "en"; otherwise the last confirmed
    language is unchanged. *)
Theorem last_confirmed_follows_confidence (E : env) (s : state) (audio_path : Py.str) :
  exists lang confidence s',
    detect_language audio_path E s = (Ok (lang, confidence), s') /\
    last_detected_lang (self s') =
      if (0.3 <? confidence)%float then lang else last_detected_lang (self s).
Proof.
  destruct (detect_language_effect E audio_path s) as (lang & c & s' & Hd & Hlast & _).
  eauto.
Qed.

(** C3, as stated, fails: English detected with confidence 0.95 replaces
    the Japanese that was last confirmed. *)
Lemma confident_english_overwrites_last_confirmed :
  last_detected_lang (self seasoned) = Py.lit "ja" /\
  last_detected_lang (self (snd (detect_language chunk_wav world_english seasoned)))
    = Py.lit "en" /\
  ~ last_confirmed_rule_as_stated world_english seasoned chunk_wav.
Proof.
  split; [reflexivity|]. split; [reflexivity|].
  intros H.
  specialize (H (Py.lit "en") 0.95%float
                {| self := with_last_detected_lang (Py.lit "en") (self seasoned);
                   calls := [detection_call chunk_wav (self seasoned)] |}
                eq_refl).
  vm_compute in H. discriminate H.
Qed.

(* ================================================================= *)
(** * Further properties of the pipeline *)

Section PipelineShape.

Variable E : env.
Variable audio_path : Py.str.

(** The guarded text block in full: what it returns, which calls it adds. *)
Lemma guarded_text_block_shape (lang : Py.str) (s1 : state) :
  exists r s2 rest,
    try_except (transcribe_then_translate audio_path lang) (ret ([], [], lang)) E s1
      = (Ok r, s2) /\
    self s2 = self s1 /\
    calls s2 = calls s1 ++ transcription_call audio_path lang (self s1) :: rest /\
    (rest = [] \/ rest = [translation_call audio_path lang (self s1)]) /\
    (original_text r = [] <-> translated_text r = []) /\
    (lang = Py.lit "en" -> translated_text r = original_text r /\ rest = []).
Proof.
  unfold try_except, ret. rewrite transcribe_then_translate_cases. cbv zeta.
  set (tc := transcription_call audio_path lang (self s1)).
  set (trc := translation_call audio_path lang (self s1)).
  assert (Hshort : forall r s2,
             r = ([], [], lang) \/ (exists t, r = (t, t, lang)) ->
             s2 = {| self := self s1; calls := calls s1 ++ [tc] |} ->
             exists r' s2' rest,
               (Ok r, s2) = (Ok r', s2') /\ self s2' = self s1 /\
               calls s2' = calls s1 ++ tc :: rest /\
               (rest = [] \/ rest = [trc]) /\
               (original_text r' = [] <-> translated_text r' = []) /\
               (lang = Py.lit "en" -> translated_text r' = original_text r' /\ rest = [])).
  { intros r s2 Hr ->. exists r, {| self := self s1; calls := calls s1 ++ [tc] |}, [].
    destruct Hr as [->|(t & ->)]; simpl; repeat split; auto. }
  assert (Hlong : forall r s2,
             lang <> Py.lit "en" ->
             (original_text r = [] <-> translated_text r = []) ->
             s2 = {| self := self s1; calls := (calls s1 ++ [tc]) ++ [trc] |} ->
             exists r' s2' rest,
               (Ok r, s2) = (Ok r', s2') /\ self s2' = self s1 /\
               calls s2' = calls s1 ++ tc :: rest /\
               (rest = [] \/ rest = [trc]) /\
               (original_text r' = [] <-> translated_text r' = []) /\
               (lang = Py.lit "en" -> translated_text r' = original_text r' /\ rest = [])).
  { intros r s2 Hen Hboth ->.
    exists r, {| self := self s1; calls := (calls s1 ++ [tc]) ++ [trc] |}, [trc].
    simpl. rewrite <- app_assoc. simpl. repeat split; auto; try apply Hboth; contradiction. }
  destruct (model_transcribe E (calls s1) tc) as [segs info|]; [|apply Hshort; auto].
  destruct (seg_raises segs); [apply Hshort; auto|].
  destruct (Py.is_empty (Py.strip (Py.join (seg_texts segs)))) eqn:Hempty; simpl;
    [apply Hshort; eauto|].
  destruct (Py.eqb lang (Py.lit "en")) eqn:Hen; [apply Hshort; eauto|].
  apply PyFacts.eqb_neq in Hen.
  destruct (model_transcribe E (calls s1 ++ [tc]) trc) as [segs' info'|];
    [|apply Hlong; simpl; tauto].
  destruct (seg_raises segs'); [apply Hlong; simpl; tauto|].
  apply Hlong; auto. simpl.
  destruct (Py.strip (Py.join (seg_texts segs))) as [|c t]; [discriminate|].
  destruct (Py.strip (Py.join (seg_texts segs'))); simpl; split; discriminate.
Qed.

End PipelineShape.

(** X1: every result of the pipeline has both texts or neither: the
    original text is empty exactly when the translated text is; and when
    the resolved language is "en" the two are equal. *)
Theorem result_texts_both_or_neither
    (E : env) (s : state) (audio_path source_lang : Py.str) :
  exists r s',
    transcribe_and_translate audio_path source_lang E s = (Ok r, s') /\
    (original_text r = [] <-> translated_text r = []) /\
    (resolved_language r = Py.lit "en" -> translated_text r = original_text r).
Proof.
  destruct (is_usable E audio_path) eqn:Hu.
  - destruct (resolve_source_lang_effect E audio_path source_lang s) as (lang & s1 & Hr & _).
    rewrite (transcribe_and_translate_usable E audio_path source_lang lang s s1 Hu Hr).
    destruct (guarded_text_block_shape E audio_path lang s1)
      as (r & s2 & rest & Heq & _ & _ & _ & Hboth & Hen).
    destruct (guarded_text_block_returns E audio_path lang s1) as (r' & s2' & Heq' & Hlang & _).
    rewrite Heq in Heq'. inversion Heq'; subst r' s2'.
    exists r, s2. split; [assumption|]. split; [assumption|].
    intros Hl. rewrite Hlang in Hl. now apply Hen.
  - rewrite (transcribe_and_translate_unusable E audio_path source_lang s Hu).
    do 2 eexists. split; [reflexivity|]. simpl. split; [tauto | reflexivity].
Qed.

Section LanguageBlockShape.

Variable E : env.
Variable audio_path : Py.str.

(** The language block on a usable chunk: the one call it may make, and
    the three things it may do to the object. *)
Lemma resolve_source_lang_shape (source_lang : Py.str) (s : state) :
  is_usable E audio_path = true ->
  exists lang s1,
    resolve_source_lang audio_path source_lang E s = (Ok lang, s1) /\
    calls s1 = calls s ++
      (if Py.eqb source_lang (Py.lit "auto")
       then [detection_call audio_path (self s)] else []) /\
    (self s1 = self s \/
     Py.eqb source_lang (Py.lit "auto") = true /\
     exists detected,
       self s1 = with_last_detected_lang detected (self s) \/
       detected <> Py.lit "en" /\
       self s1 = cache_increment detected (with_last_detected_lang detected (self s))).
Proof.
  intros Hu.
  destruct (Py.eqb source_lang (Py.lit "auto")) eqn:Ha.
  - apply PyFacts.eqb_eq in Ha; subst source_lang.
    pose proof (detect_language_usable E audio_path s Hu) as Hd. cbv zeta in Hd.
    destruct (model_transcribe E (calls s) (detection_call audio_path (self s)))
      as [segs info|].
    + set (dl := Py.getattr (info_language info) (last_detected_lang (self s))) in *.
      set (c := Py.getattr (language_probability info) 0.0%float) in *.
      destruct (0.3 <? c)%float eqn:Hc.
      * rewrite (resolve_auto_confident E audio_path s _ dl c Hd Hc).
        do 2 eexists. split; [reflexivity|].
        destruct (Py.eqb dl (Py.lit "en")) eqn:Hen; simpl.
        -- split; [reflexivity|]. right. split; [reflexivity|]. exists dl. now left.
        -- split; [reflexivity|]. right. split; [reflexivity|]. exists dl. right.
           split; [now apply PyFacts.eqb_neq | reflexivity].
      * pose proof (resolve_auto_unsure E audio_path s _ dl c Hd Hc) as Hr.
        cbv zeta in Hr. simpl in Hr.
        destruct (Py.truthy (detected_lang_cache (self s))) eqn:Ht.
        -- destruct (max_truthy _ (fun k => Py.get (detected_lang_cache (self s)) k 0) Ht)
             as (k & Hmax & _).
           rewrite Hmax in Hr. rewrite Hr.
           do 2 eexists. split; [reflexivity|]. simpl. split; [reflexivity | now left].
        -- rewrite Hr. do 2 eexists. split; [reflexivity|]. simpl.
           split; [reflexivity | now left].
    + assert (Hc : (0.3 <? 0.0)%float = false) by reflexivity.
      pose proof (resolve_auto_unsure E audio_path s _ _ _ Hd Hc) as Hr.
      cbv zeta in Hr. simpl in Hr.
      destruct (Py.truthy (detected_lang_cache (self s))) eqn:Ht.
      * destruct (max_truthy _ (fun k => Py.get (detected_lang_cache (self s)) k 0) Ht)
          as (k & Hmax & _).
        rewrite Hmax in Hr. rewrite Hr.
        do 2 eexists. split; [reflexivity|]. simpl. split; [reflexivity | now left].
      * rewrite Hr. do 2 eexists. split; [reflexivity|]. simpl.
        split; [reflexivity | now left].
  - rewrite (resolve_explicit E audio_path source_lang s Ha).
    do 2 eexists. split; [reflexivity|]. rewrite app_nil_r. split; [reflexivity | now left].
Qed.

End LanguageBlockShape.

(** X2: the calls of one invocation.  On an unusable chunk the pipeline
    makes none.  On a usable chunk it makes, in this order, a detection call
    if and only if "auto" was requested, one transcription call hinted with
    the resolved language, and at most one translation call, hinted
    likewise; nothing else. *)
Theorem pipeline_call_protocol
    (E : env) (s : state) (audio_path source_lang : Py.str) :
  exists r s',
    transcribe_and_translate audio_path source_lang E s = (Ok r, s') /\
    if is_usable E audio_path then
      exists rest,
        calls s' = calls s ++
          (if Py.eqb source_lang (Py.lit "auto")
           then [detection_call audio_path (self s)] else []) ++
          transcription_call audio_path (resolved_language r) (self s') :: rest /\
        (rest = [] \/
         rest = [translation_call audio_path (resolved_language r) (self s')])
    else calls s' = calls s.
Proof.
  destruct (is_usable E audio_path) eqn:Hu.
  - destruct (resolve_source_lang_shape E audio_path source_lang s Hu)
      as (lang & s1 & Hr & Hcalls & _).
    rewrite (transcribe_and_translate_usable E audio_path source_lang lang s s1 Hu Hr).
    destruct (guarded_text_block_shape E audio_path lang s1)
      as (r & s2 & rest & Heq & Hself & Hc2 & Hrest & _).
    destruct (guarded_text_block_returns E audio_path lang s1) as (r' & s2' & Heq' & Hlang & _).
    rewrite Heq in Heq'. inversion Heq'; subst r' s2'.
    exists r, s2. split; [assumption|]. exists rest.
    rewrite Hlang, Hself, Hc2, Hcalls, <- app_assoc. split; [reflexivity | assumption].
  - rewrite (transcribe_and_translate_unusable E audio_path source_lang s Hu).
    do 2 eexists. split; reflexivity.
Qed.


Section TableSound.

Lemma lookup_sound (d : Py.dict) (k : Py.str) (v : Z) :
  table_sound d -> Py.lookup d k = Some v -> 1 <= v.
Proof.
  unfold table_sound. induction d as [|[k' v'] d IH]; simpl; [discriminate|].
  intros Hd Hl. inversion Hd as [|? ? [_ Hv] Hd']; subst.
  destruct (Py.eqb k' k); [inversion Hl; subst; assumption | auto].
Qed.

Lemma setitem_sound (d : Py.dict) (k : Py.str) (v : Z) :
  table_sound d -> k <> Py.lit "en" -> 1 <= v -> table_sound (Py.setitem d k v).
Proof.
  unfold table_sound. intros Hd Hk Hv.
  induction d as [|[k' v'] d IH]; simpl.
  - repeat constructor; assumption.
  - inversion Hd as [|? ? [Hk' _] Hd']; subst. simpl in Hk'.
    destruct (Py.eqb k' k); constructor; simpl; auto.
    inversion Hd as [|? ? [_ Hv'] _]. simpl in Hv'. auto.
Qed.

Lemma cache_increment_sound (a : AudioTranslator) (k : Py.str) :
  table_sound (detected_lang_cache a) -> k <> Py.lit "en" ->
  table_sound (detected_lang_cache (cache_increment k a)).
Proof.
  intros Hd Hk. simpl. apply setitem_sound; [assumption | assumption |].
  unfold Py.get. destruct (Py.lookup (detected_lang_cache a) k) as [v|] eqn:Hl; [|lia].
  pose proof (lookup_sound _ _ _ Hd Hl). lia.
Qed.

Lemma transcribe_and_translate_table_sound
    (E : env) (s : state) (audio_path source_lang : Py.str) :
  table_sound (detected_lang_cache (self s)) ->
  table_sound
    (detected_lang_cache (self (snd (transcribe_and_translate audio_path source_lang E s)))).
Proof.
  intros Hd. destruct (is_usable E audio_path) eqn:Hu.
  - destruct (resolve_source_lang_shape E audio_path source_lang s Hu)
      as (lang & s1 & Hr & _ & Hobj).
    rewrite (transcribe_and_translate_self E audio_path source_lang lang s s1 Hu Hr).
    destruct Hobj as [->|(_ & detected & [->|[Hne ->]])]; [assumption | assumption |].
    now apply cache_increment_sound.
  - now rewrite (transcribe_and_translate_unusable E audio_path source_lang s Hu).
Qed.

End TableSound.

(** X4: English is never counted.  If the frequency table holds no "en"
    and only counts of at least one, as the empty table of a new translator
    does, then so it does after any sequence of invocations. *)
Theorem english_is_never_counted (invs : list invocation) (s : state) :
  table_sound (detected_lang_cache (self s)) ->
  table_sound (detected_lang_cache (self (run_invocations invs s))).
Proof.
  revert s. induction invs as [|i invs IH]; intros s Hd; simpl; [assumption|].
  apply IH. now apply transcribe_and_translate_table_sound.
Qed.

Lemma english_is_never_counted_witness :
  table_sound (detected_lang_cache (self fresh)) /\
  table_sound
    (detected_lang_cache
       (self (run_invocations
                [ {| inv_env := world_english; inv_audio := chunk_wav;
                     inv_language := Py.lit "auto" |};
                  {| inv_env := world_hello; inv_audio := chunk_wav;
                     inv_language := Py.lit "auto" |} ] fresh))).
Proof.
  split; [constructor|].
  apply (english_is_never_counted
           [ {| inv_env := world_english; inv_audio := chunk_wav;
                inv_language := Py.lit "auto" |};
             {| inv_env := world_hello; inv_audio := chunk_wav;
                inv_language := Py.lit "auto" |} ] fresh).
  constructor.
Defined.

(** X5: the translation step in full.  When the transcription gives a
    non-empty text in a language other than "en" and the translation call
    returns, the result carries the transcribed text, and beside it the
    joined and trimmed translation, or the transcribed text again if the
    translation is blank. *)
Theorem translation_result
    (E : env) (s s1 : state) (audio_path source_lang lang : Py.str)
    (segs segs' : segments) (info info' : transcription_info) :
  is_usable E audio_path = true ->
  resolve_source_lang audio_path source_lang E s = (Ok lang, s1) ->
  model_transcribe E (calls s1) (transcription_call audio_path lang (self s1))
    = Returns segs info ->
  seg_raises segs = false ->
  Py.strip (Py.join (seg_texts segs)) <> [] ->
  lang <> Py.lit "en" ->
  model_transcribe E
    (calls s1 ++ [transcription_call audio_path lang (self s1)])
    (translation_call audio_path lang (self s1)) = Returns segs' info' ->
  seg_raises segs' = false ->
  fst (transcribe_and_translate audio_path source_lang E s)
    = Ok (Py.strip (Py.join (seg_texts segs)),
          (if Py.is_empty (Py.strip (Py.join (seg_texts segs')))
           then Py.strip (Py.join (seg_texts segs))
           else Py.strip (Py.join (seg_texts segs'))),
          lang).
Proof.
  intros Hu Hr Hm Hs Ht Hlang Hm' Hs'.
  rewrite (transcribe_and_translate_usable E audio_path source_lang lang s s1 Hu Hr).
  unfold try_except. rewrite transcribe_then_translate_cases. cbv zeta.
  rewrite Hm, Hs.
  apply PyFacts.eqb_neq in Hlang. rewrite Hlang, orb_false_r.
  destruct (Py.strip (Py.join (seg_texts segs))) as [|c t] eqn:Htext; [congruence|].
  simpl Py.is_empty. cbv iota. rewrite Hm', Hs'. simpl.
  now rewrite andb_true_r.
Qed.

Lemma translation_result_witness :
  fst (transcribe_and_translate chunk_wav (Py.lit "ja") world_hello fresh)
    = Ok (konnichiwa, Py.lit "Hello", Py.lit "ja") /\
  fst (transcribe_and_translate chunk_wav (Py.lit "ja") world_blank_translation fresh)
    = Ok (konnichiwa, konnichiwa, Py.lit "ja").
Proof.
  split.
  - apply (translation_result world_hello fresh fresh chunk_wav (Py.lit "ja") (Py.lit "ja")
             (said [konnichiwa]) (said [Py.lit " Hello"])
             (heard (Py.lit "ja") 1%float) (heard (Py.lit "ja") 1%float));
      try reflexivity; discriminate.
  - apply (translation_result world_blank_translation fresh fresh chunk_wav
             (Py.lit "ja") (Py.lit "ja")
             (said [konnichiwa]) (said [Py.lit "  "])
             (heard (Py.lit "ja") 1%float) (heard (Py.lit "ja") 1%float));
      try reflexivity; discriminate.
Defined.

(** X6: a detection call that raises does not end the invocation and
    writes nothing: the object is as before, the language is the one memory
    offers (the key [max] picks from the cache, or the last detected language
    if the cache is empty), and the transcription call follows the failed
    detection call. *)
Theorem failed_detection_falls_back_to_memory
    (E : env) (s : state) (audio_path : Py.str) :
  is_usable E audio_path = true ->
  model_transcribe E (calls s) (detection_call audio_path (self s)) = Raises ->
  exists r s' rest,
    transcribe_and_translate audio_path (Py.lit "auto") E s = (Ok r, s') /\
    self s' = self s /\
    resolved_language r =
      (match Py.max (Py.keys (detected_lang_cache (self s)))
               (fun k => Py.get (detected_lang_cache (self s)) k 0) with
       | Some k => k
       | None => last_detected_lang (self s)
       end) /\
    calls s' = calls s ++
      detection_call audio_path (self s)
      :: transcription_call audio_path (resolved_language r) (self s) :: rest.
Proof.
  intros Hu Hm.
  pose proof (detect_language_usable E audio_path s Hu) as Hd. cbv zeta in Hd.
  rewrite Hm in Hd.
  assert (Hc : (0.3 <? 0.0)%float = false) by reflexivity.
  pose proof (resolve_auto_unsure E audio_path s _ _ _ Hd Hc) as Hr.
  cbv zeta in Hr. simpl in Hr.
  set (guess := match Py.max (Py.keys (detected_lang_cache (self s)))
                        (fun k => Py.get (detected_lang_cache (self s)) k 0) with
                | Some k => k
                | None => last_detected_lang (self s)
                end).
  assert (Hr' : resolve_source_lang audio_path (Py.lit "auto") E s
                = (Ok guess, {| self := self s;
                                calls := calls s ++ [detection_call audio_path (self s)] |})).
  { rewrite Hr. unfold guess.
    destruct (detected_lang_cache (self s)) as [|[k0 v0] d]; reflexivity. }
  rewrite (transcribe_and_translate_usable E audio_path _ guess s _ Hu Hr').
  destruct (guarded_text_block_shape E audio_path guess
              {| self := self s; calls := calls s ++ [detection_call audio_path (self s)] |})
    as (r & s2 & rest & Heq & Hself & Hcalls & _).
  destruct (guarded_text_block_returns E audio_path guess
              {| self := self s; calls := calls s ++ [detection_call audio_path (self s)] |})
    as (r' & s2' & Heq' & Hlang & _).
  rewrite Heq in Heq'. inversion Heq'; subst r' s2'.
  exists r, s2, rest. split; [assumption|]. simpl in *.
  rewrite Hlang, Hcalls, <- app_assoc. repeat split; assumption.
Qed.

Lemma failed_detection_falls_back_to_memory_witness :
  (is_usable world_silence chunk_wav = true /\
   model_transcribe world_silence (calls seasoned) (detection_call chunk_wav (self seasoned))
     = Raises) /\
  exists r s' rest,
    transcribe_and_translate chunk_wav (Py.lit "auto") world_silence seasoned = (Ok r, s') /\
    self s' = self seasoned /\
    resolved_language r = Py.lit "ja" /\
    calls s' = calls seasoned ++
      detection_call chunk_wav (self seasoned)
      :: transcription_call chunk_wav (resolved_language r) (self seasoned) :: rest.
Proof.
  split; [split; reflexivity|].
  apply (failed_detection_falls_back_to_memory world_silence seasoned chunk_wav);
    reflexivity.
Defined.

(* ================================================================= *)
(** * Display *)

(** The dict literal of the source names no language twice, so looking a
    code up finds the one entry there is. *)
Lemma SUPPORTED_LANGUAGES_keys_distinct : NoDup (map fst SUPPORTED_LANGUAGES).
Proof.
  assert (H : forall l : list string,
             (fix distinct (l : list string) : bool :=
                match l with
                | [] => true
                | x :: l' => negb (existsb (String.eqb x) l') && distinct l'
                end) l = true -> NoDup l).
  { induction l as [|x l IH]; intros Hl; [constructor|].
    apply andb_true_iff in Hl. destruct Hl as [Hx Hl]. constructor; [|auto].
    intros Hin. apply negb_true_iff in Hx.
    assert (existsb (String.eqb x) l = true); [|congruence].
    apply existsb_exists. exists x. split; [assumption | apply String.eqb_refl]. }
  apply H. vm_compute. reflexivity.
Qed.

Example display_of_a_translation :
  console (display_result laptop bilingual_args konnichiwa (Py.lit "Hello") (Py.lit "ja")
             (new_session fresh))
  = [ Text (Py.lit "[dim]Japanese:[/] " ++ konnichiwa);
      Text (Py.lit "[bold yellow]English:[/] Hello");
      Text (Py.lit "[dim]" ++ [9492; 9472]%N ++ Py.lit " 21:07:45[/]") ] /\
  console (display_result laptop compact_args konnichiwa (Py.lit "Hello") (Py.lit "ja")
             (new_session fresh))
  = [ Text (Py.lit "[21:07:45] [bold blue]Japanese" ++ [8594]%N ++ Py.lit "EN:[/] Hello") ] /\
  console (display_result laptop default_args (Py.lit "good morning") (Py.lit "good morning")
             (Py.lit "en") (new_session fresh))
  = [ Text (Py.lit "[bold green]EN:[/] good morning") ].
Proof. repeat split. Qed.

Ltac display_cases :=
  unfold display_result, print_if, console_print, count_chunk, with_translator, with_self;
  repeat match goal with
         | |- context [if ?b then _ else _] =>
             let Hb := fresh "Hb" in destruct b eqn:Hb; simpl
         end.

(** X7: [display_result] counts a chunk exactly when one of the two texts
    is not empty, prints only by adding to the console, prints nothing for
    two empty texts, and touches nothing else: not the language memory, not
    the model, no process, no file. *)
Theorem display_result_counts_and_frames
    (H : host) (a : Args) (original translated detected_lang : Py.str) (s : session) :
  let s' := display_result H a original translated detected_lang s in
  chunk_count (self (translator s')) =
    chunk_count (self (translator s))
    + (if Py.is_empty translated && Py.is_empty original then 0 else 1) /\
  detected_lang_cache (self (translator s')) = detected_lang_cache (self (translator s)) /\
  last_detected_lang (self (translator s')) = last_detected_lang (self (translator s)) /\
  calls (translator s') = calls (translator s) /\
  spawned s' = spawned s /\ constructed s' = constructed s /\ removed s' = removed s /\
  exists new,
    console s' = console s ++ new /\
    (Py.is_empty translated && Py.is_empty original = true -> new = []).
Proof.
  cbv zeta.
  destruct (Py.is_empty translated && Py.is_empty original) eqn:Hboth.
  - unfold display_result. rewrite Hboth.
    repeat split; try lia. exists []. now rewrite app_nil_r.
  - unfold display_result. rewrite Hboth.
    display_cases; repeat split; try reflexivity;
      eexists; (split; [try reflexivity | discriminate]);
      try (repeat rewrite <- app_assoc; reflexivity);
      try (symmetry; apply app_nil_r).
Qed.

(** How many lines [display_result] prints for a result that is not empty,
    in each layout. *)
Lemma display_result_lines
    (H : host) (a : Args) (original translated detected_lang : Py.str) (s : session) :
  Py.is_empty translated && Py.is_empty original = false ->
  exists new,
    console (display_result H a original translated detected_lang s) = console s ++ new /\
    List.length new =
      if args_compact a then
        if shows_translation original translated detected_lang
           || negb (Py.is_empty original) then 1%nat else 0%nat
      else
        ((if shows_translation original translated detected_lang
             && (args_show_original a || args_bilingual a) then 2 else 1)
         + (if args_show_timestamps a && negb (Py.is_empty (now_hms H)) then 1 else 0))%nat.
Proof.
  intros Hboth. unfold display_result. rewrite Hboth.
  destruct (args_compact a); cbv zeta.
  - destruct (shows_translation original translated detected_lang); simpl;
      [eexists; split; reflexivity|].
    destruct (negb (Py.is_empty original)); simpl;
      [eexists; split; reflexivity|].
    exists []. now rewrite app_nil_r.
  - destruct (shows_translation original translated detected_lang); simpl.
    + destruct (args_show_original a || args_bilingual a);
        destruct (args_show_timestamps a); simpl;
          try destruct (negb (Py.is_empty (now_hms H))); simpl;
            eexists; (split; [repeat rewrite <- app_assoc; reflexivity | reflexivity]).
    + destruct (Py.is_empty original) eqn:Ho; simpl.
      * rewrite andb_true_r in Hboth. rewrite Hboth. simpl.
        destruct (args_show_timestamps a); simpl;
          try destruct (negb (Py.is_empty (now_hms H))); simpl;
            eexists; (split; [repeat rewrite <- app_assoc; reflexivity | reflexivity]).
      * destruct (args_show_timestamps a); simpl;
          try destruct (negb (Py.is_empty (now_hms H))); simpl;
            eexists; (split; [repeat rewrite <- app_assoc; reflexivity | reflexivity]).
Qed.

(** X8: the compact layout prints at most one line for a result, and it
    prints none, although the chunk is counted, exactly when the original
    text is empty and the language is "en". *)
Theorem compact_layout_prints_at_most_one_line
    (H : host) (a : Args) (original translated detected_lang : Py.str) (s : session) :
  args_compact a = true ->
  original <> [] \/ translated <> [] ->
  exists new,
    console (display_result H a original translated detected_lang s) = console s ++ new /\
    (List.length new <= 1)%nat /\
    (new = [] <-> original = [] /\ detected_lang = Py.lit "en").
Proof.
  intros Hc Hne.
  assert (Hboth : Py.is_empty translated && Py.is_empty original = false).
  { destruct translated, original; simpl; try reflexivity. destruct Hne; congruence. }
  destruct (display_result_lines H a original translated detected_lang s Hboth)
    as (new & Hconsole & Hlen).
  rewrite Hc in Hlen. exists new. split; [assumption|].
  unfold shows_translation in Hlen.
  destruct original as [|c o]; simpl in Hlen.
  - destruct translated as [|c t]; [discriminate|]. simpl in Hlen.
    destruct (Py.eqb detected_lang (Py.lit "en")) eqn:Hen; simpl in Hlen.
    + apply PyFacts.eqb_eq in Hen. destruct new; [|discriminate].
      split; [lia|]. tauto.
    + apply PyFacts.eqb_neq in Hen. destruct new; [discriminate|].
      split; [simpl in *; lia|]. split; [discriminate|]. intros [_ ?]. contradiction.
  - rewrite orb_true_r in Hlen. destruct new; [discriminate|].
    split; [simpl in *; lia|]. split; [discriminate|]. intros [? _]. discriminate.
Qed.

Lemma compact_layout_prints_at_most_one_line_witness :
  (args_compact compact_args = true /\
   ((@nil N) <> [] \/ Py.lit "Thank you." <> [])) /\
  exists new,
    console (display_result laptop compact_args [] (Py.lit "Thank you.") (Py.lit "en")
               (new_session fresh))
      = console (new_session fresh) ++ new /\
    (List.length new <= 1)%nat /\
    (new = [] <-> (@nil N) = [] /\ Py.lit "en" = Py.lit "en").
Proof.
  split; [split; [reflexivity | right; discriminate]|].
  apply (compact_layout_prints_at_most_one_line laptop compact_args [] (Py.lit "Thank you.")
           (Py.lit "en") (new_session fresh)).
  - reflexivity.
  - right; discriminate.
Defined.

(** X9: the full layout prints at least one text line for every result
    that is not empty: two when a translation is shown and the original was
    asked for beside it, one otherwise; and one more line for the timestamp
    when timestamps are on. *)
Theorem full_layout_line_count
    (H : host) (a : Args) (original translated detected_lang : Py.str) (s : session) :
  args_compact a = false ->
  original <> [] \/ translated <> [] ->
  exists new,
    console (display_result H a original translated detected_lang s) = console s ++ new /\
    List.length new =
      ((if shows_translation original translated detected_lang
           && (args_show_original a || args_bilingual a) then 2 else 1)
       + (if args_show_timestamps a && negb (Py.is_empty (now_hms H)) then 1 else 0))%nat.
Proof.
  intros Hc Hne.
  assert (Hboth : Py.is_empty translated && Py.is_empty original = false).
  { destruct translated, original; simpl; try reflexivity. destruct Hne; congruence. }
  destruct (display_result_lines H a original translated detected_lang s Hboth)
    as (new & Hconsole & Hlen).
  rewrite Hc in Hlen. eauto.
Qed.

Lemma full_layout_line_count_witness :
  (args_compact bilingual_args = false /\
   (konnichiwa <> [] \/ Py.lit "Hello" <> [])) /\
  exists new,
    console (display_result laptop bilingual_args konnichiwa (Py.lit "Hello") (Py.lit "ja")
               (new_session fresh))
      = console (new_session fresh) ++ new /\
    List.length new = 3%nat.
Proof.
  split; [split; [reflexivity | left; discriminate]|].
  apply (full_layout_line_count laptop bilingual_args konnichiwa (Py.lit "Hello") (Py.lit "ja")
           (new_session fresh)).
  - reflexivity.
  - left; discriminate.
Defined.

(** A result of the pipeline has an empty translated text exactly when its
    original text is empty. *)
Lemma pipeline_texts_agree_on_emptiness
    (E : env) (t : state) (audio_path source_lang : Py.str) :
  exists r t',
    transcribe_and_translate audio_path source_lang E t = (Ok r, t') /\
    Py.is_empty (translated_text r) = Py.is_empty (original_text r).
Proof.
  destruct (is_usable E audio_path) eqn:Hu.
  - destruct (resolve_source_lang_effect E audio_path source_lang t) as (lang & s1 & Hr & _).
    rewrite (transcribe_and_translate_usable E audio_path source_lang lang t s1 Hu Hr).
    destruct (guarded_text_block_shape E audio_path lang s1)
      as (r & s2 & rest & Heq & _ & _ & _ & Hboth & _).
    exists r, s2. split; [assumption|].
    destruct (translated_text r), (original_text r); simpl; try reflexivity;
      destruct Hboth as [H1 H2]; try (now discriminate H1); now discriminate H2.
  - rewrite (transcribe_and_translate_unusable E audio_path source_lang t Hu).
    do 2 eexists. split; reflexivity.
Qed.

(** X10: the pipeline and the display together.  Whatever the pipeline
    returns, displaying it counts the chunk exactly when it prints, and it
    prints exactly when the original text is not empty; in the compact
    layout it then prints one line. *)
Theorem displayed_pipeline_result
    (H : host) (a : Args) (E : env) (t : state) (audio_path source_lang : Py.str)
    (s : session) :
  exists r t' new,
    transcribe_and_translate audio_path source_lang E t = (Ok r, t') /\
    let s' := display_result H a (original_text r) (translated_text r) (resolved_language r)
                (with_translator t' s) in
    console s' = console s ++ new /\
    if Py.is_empty (original_text r) then
      new = [] /\ chunk_count (self (translator s')) = chunk_count (self t')
    else
      new <> [] /\ chunk_count (self (translator s')) = chunk_count (self t') + 1 /\
      (args_compact a = true -> List.length new = 1%nat).
Proof.
  destruct (pipeline_texts_agree_on_emptiness E t audio_path source_lang)
    as (r & t' & Heq & Hempty).
  cbv zeta.
  destruct (Py.is_empty (original_text r)) eqn:Ho.
  - exists r, t', []. split; [assumption|].
    unfold display_result. rewrite Hempty, Ho. simpl.
    split; [now rewrite app_nil_r | split; reflexivity].
  - assert (Hboth : Py.is_empty (translated_text r) && Py.is_empty (original_text r) = false)
      by (now rewrite Ho, andb_false_r).
    destruct (display_result_lines H a (original_text r) (translated_text r)
                (resolved_language r) (with_translator t' s) Hboth) as (new & Hconsole & Hlen).
    exists r, t', new. split; [assumption|]. split; [exact Hconsole|].
    rewrite Ho, orb_true_r in Hlen. simpl in Hlen. rewrite Ho.
    split; [|split].
    + destruct new; [|discriminate]. destruct (args_compact a); [discriminate|].
      simpl in Hlen. destruct (_ && _) in Hlen; discriminate.
    + unfold display_result. rewrite Hboth.
      display_cases; reflexivity.
    + intros Hc. now rewrite Hc in Hlen.
Qed.

(* ================================================================= *)
(** * Loading the model *)

Ltac load_model_cases H s :=
  unfold load_model, choose_device, run_process, construct_model, console_print; simpl;
  repeat match goal with
         | |- context [Py.eqb ?d (Py.lit "auto")] =>
             let Hd := fresh "Hauto" in destruct (Py.eqb d (Py.lit "auto")) eqn:Hd; simpl
         | |- context [subprocess_run H ?log ?argv] =>
             let Hp := fresh "Hprobe" in destruct (subprocess_run H log argv) eqn:Hp; simpl
         | |- context [WhisperModel H ?log ?m] =>
             let Hc := fresh "Hctor" in destruct (WhisperModel H log m) eqn:Hc; simpl
         end.

(** X11: with an explicit device [load_model] runs no process; it
    constructs on the device and precision it was given, and after that at
    most once more, on "cpu" with "int8". *)
Theorem explicit_device_is_not_probed
    (H : host) (model_size device compute_type : Py.str) (s : session) :
  device <> Py.lit "auto" ->
  let s' := snd (load_model H model_size device compute_type s) in
  spawned s' = spawned s /\
  exists rest,
    constructed s' = constructed s ++
      {| ctor_model_size := model_size; ctor_device := device;
         ctor_compute_type := compute_type |} :: rest /\
    (rest = [] \/
     rest = [ {| ctor_model_size := model_size; ctor_device := Py.lit "cpu";
                 ctor_compute_type := Py.lit "int8" |} ]).
Proof.
  intros Hne. apply PyFacts.eqb_neq in Hne. cbv zeta.
  unfold load_model, choose_device. rewrite Hne.
  unfold construct_model, console_print; simpl.
  destruct (WhisperModel H (constructed s) _); simpl.
  - split; [reflexivity|]. exists []. auto.
  - destruct (WhisperModel H (constructed s ++ _) _); simpl;
      (split; [reflexivity|]); eexists; rewrite <- app_assoc; simpl; auto.
Qed.

Lemma explicit_device_is_not_probed_witness :
  Py.lit "cuda" <> Py.lit "auto" /\
  spawned (snd (load_model laptop (Py.lit "small") (Py.lit "cuda") (Py.lit "float16")
                  (new_session fresh))) = [] /\
  exists rest,
    constructed (snd (load_model laptop (Py.lit "small") (Py.lit "cuda") (Py.lit "float16")
                        (new_session fresh)))
    = [] ++ {| ctor_model_size := Py.lit "small"; ctor_device := Py.lit "cuda";
               ctor_compute_type := Py.lit "float16" |} :: rest /\
    (rest = [] \/
     rest = [ {| ctor_model_size := Py.lit "small"; ctor_device := Py.lit "cpu";
                 ctor_compute_type := Py.lit "int8" |} ]).
Proof.
  split; [discriminate|].
  apply (explicit_device_is_not_probed laptop (Py.lit "small") (Py.lit "cuda")
           (Py.lit "float16") (new_session fresh)).
  discriminate.
Defined.

(** X12: what [load_model] ends with.  The model it returns is the last
    one constructed, and that construction succeeded.  It raises only when
    the GPU probe raised something other than the two errors it handles
    (nothing is constructed then), or when the fallback construction on
    "cpu" with "int8" raised. *)
Theorem load_model_outcome
    (H : host) (model_size device compute_type : Py.str) (s : session) :
  let '(r, s') := load_model H model_size device compute_type s in
  match r with
  | Done m =>
      exists log, constructed s' = log ++ [m] /\ WhisperModel H log m = Constructed
  | Throws _ =>
      (device = Py.lit "auto" /\
       subprocess_run H (spawned s) [Py.lit "nvidia-smi"] = OtherProcError /\
       constructed s' = constructed s)
      \/
      (exists log text,
          constructed s' = log ++ [ {| ctor_model_size := model_size;
                                       ctor_device := Py.lit "cpu";
                                       ctor_compute_type := Py.lit "int8" |} ] /\
          WhisperModel H log {| ctor_model_size := model_size;
                                ctor_device := Py.lit "cpu";
                                ctor_compute_type := Py.lit "int8" |} = CtorRaises text)
  end.
Proof.
  load_model_cases H s;
    try (eexists; split; [reflexivity | eassumption]);
    try (right; do 2 eexists; split; [reflexivity | eassumption]).
  left. apply PyFacts.eqb_eq in Hauto. auto.
Qed.

(** X13: asked for "auto", [load_model] constructs on "cuda" only after
    nvidia-smi ran and exited with status zero: if it did not, every model
    constructed is on "cpu". *)
Theorem auto_without_gpu_stays_on_cpu
    (H : host) (model_size compute_type : Py.str) (s : session) :
  (forall out, subprocess_run H (spawned s) [Py.lit "nvidia-smi"] <> Completed out) ->
  exists new,
    constructed (snd (load_model H model_size (Py.lit "auto") compute_type s))
      = constructed s ++ new /\
    Forall (fun m => ctor_device m = Py.lit "cpu") new.
Proof.
  intros Hprobe.
  unfold load_model, choose_device. rewrite PyFacts.eqb_refl.
  unfold run_process, construct_model, console_print; simpl.
  destruct (subprocess_run H (spawned s) [Py.lit "nvidia-smi"]) as [out|e| |] eqn:Hp; simpl.
  - exfalso. now apply (Hprobe out).
  - destruct (WhisperModel H (constructed s) _); simpl;
      [eexists; split; [reflexivity | repeat constructor]|].
    destruct (WhisperModel H (constructed s ++ _) _); simpl;
      eexists; (split; [rewrite <- app_assoc; reflexivity | repeat constructor]).
  - destruct (WhisperModel H (constructed s) _); simpl;
      [eexists; split; [reflexivity | repeat constructor]|].
    destruct (WhisperModel H (constructed s ++ _) _); simpl;
      eexists; (split; [rewrite <- app_assoc; reflexivity | repeat constructor]).
  - exists []. split; [now rewrite app_nil_r | constructor].
Qed.

Lemma auto_without_gpu_stays_on_cpu_witness :
  (forall out, subprocess_run laptop (spawned (new_session fresh)) [Py.lit "nvidia-smi"]
               <> Completed out) /\
  exists new,
    constructed (snd (load_model laptop (Py.lit "small") (Py.lit "auto") (Py.lit "int8")
                        (new_session fresh)))
      = constructed (new_session fresh) ++ new /\
    Forall (fun m => ctor_device m = Py.lit "cpu") new.
Proof.
  split; [intros out; discriminate|].
  apply (auto_without_gpu_stays_on_cpu laptop (Py.lit "small") (Py.lit "int8")
           (new_session fresh)).
  intros out; discriminate.
Defined.

(** On a machine whose nvidia-smi answers but whose CUDA cannot be used,
    the model ends up on "cpu" with "int8" after one failed construction. *)
Example stale_driver_falls_back :
  fst (load_model stale_driver (Py.lit "small") (Py.lit "auto") (Py.lit "float16")
         (new_session fresh))
  = Done {| ctor_model_size := Py.lit "small"; ctor_device := Py.lit "cpu";
            ctor_compute_type := Py.lit "int8" |} /\
  map ctor_device
    (constructed (snd (load_model stale_driver (Py.lit "small") (Py.lit "auto")
                         (Py.lit "float16") (new_session fresh))))
  = [Py.lit "cuda"; Py.lit "cpu"].
Proof. split; reflexivity. Qed.

(* ================================================================= *)
(** * The loop of [run] *)

Section Loop.

Variable a : Args.

(** [record_chunk] only runs ffmpeg and prints. *)
Lemma record_chunk_frame (H : host) (pulse_source : Py.str) (seconds : float)
    (out_path : Py.str) (s : session) :
  let s1 := snd (record_chunk H pulse_source seconds out_path s) in
  translator s1 = translator s /\ removed s1 = removed s /\
  exists new, console s1 = console s ++ new.
Proof.
  cbv zeta. unfold record_chunk, run_process, console_print.
  destruct (subprocess_run H (spawned s) _); simpl; repeat split;
    try (exists []; now rewrite app_nil_r); eexists; reflexivity.
Qed.

(** [display_result] removes no file and leaves memory and model alone. *)
Lemma display_result_frame
    (H : host) (original translated detected_lang : Py.str) (s : session) :
  let s' := display_result H a original translated detected_lang s in
  removed s' = removed s /\
  detected_lang_cache (self (translator s')) = detected_lang_cache (self (translator s)) /\
  last_detected_lang (self (translator s')) = last_detected_lang (self (translator s)) /\
  calls (translator s') = calls (translator s).
Proof. cbv zeta. display_cases; repeat split. Qed.

(** The pipeline never writes the chunk counter. *)
Lemma transcribe_and_translate_chunk_count
    (E : env) (t : state) (audio_path source_lang : Py.str) :
  chunk_count (self (snd (transcribe_and_translate audio_path source_lang E t)))
    = chunk_count (self t).
Proof.
  destruct (is_usable E audio_path) eqn:Hu.
  - destruct (resolve_source_lang_shape E audio_path source_lang t Hu)
      as (lang & s1 & Hr & _ & Hobj).
    rewrite (transcribe_and_translate_self E audio_path source_lang lang t s1 Hu Hr).
    destruct Hobj as [->|(_ & detected & [->|[_ ->]])]; reflexivity.
  - now rewrite (transcribe_and_translate_unusable E audio_path source_lang t Hu).
Qed.

(** One pass of the loop, seen from the translator: either nothing
    happened to it, or the chunk was recorded and usable and the pipeline
    ran once on it, after which at most the chunk counter moved. *)
Lemma run_iteration_translator (it : iteration) (s : session) :
  let s' := run_iteration a it s in
  translator s' = translator s \/
  is_usable (it_env it) (it_tmp_path it) = true /\
  (exists out,
      subprocess_run (it_host it) (spawned s)
        (ffmpeg_cmd (it_host it) (args_source a) (args_chunk a) (it_tmp_path it))
      = Completed out) /\
  let t' := snd (transcribe_and_translate (it_tmp_path it) (args_language a) (it_env it)
                   (translator s)) in
  detected_lang_cache (self (translator s')) = detected_lang_cache (self t') /\
  last_detected_lang (self (translator s')) = last_detected_lang (self t') /\
  calls (translator s') = calls t'.
Proof.
  cbv zeta. unfold run_iteration, os_remove_quietly. simpl.
  pose proof (record_chunk_frame (it_host it) (args_source a) (args_chunk a)
                (it_tmp_path it) s) as Hrec. cbv zeta in Hrec.
  unfold record_chunk, run_process in *. simpl in *.
  destruct (subprocess_run (it_host it) (spawned s) _) as [out|e| |] eqn:Hp; simpl in *;
    try (now left).
  rewrite is_valid_audio_file_spec.
  destruct (is_usable (it_env it) (it_tmp_path it)) eqn:Hu; [|now left].
  right. split; [reflexivity|]. split; [eauto|].
  destruct (transcribe_and_translate (it_tmp_path it) (args_language a) (it_env it)
              (translator s)) as [[[[o tr] l]|] t2]; simpl; [|repeat split].
  destruct (negb (Py.is_empty o) || negb (Py.is_empty tr)); simpl; [|repeat split].
  pose proof (display_result_frame (it_host it) o tr l
                (with_translator t2
                   {| translator := translator s; console := console s;
                      spawned := spawned s ++ [ffmpeg_cmd (it_host it) (args_source a)
                                                 (args_chunk a) (it_tmp_path it)];
                      constructed := constructed s; removed := removed s |})) as Hd.
  cbv zeta in Hd. simpl in Hd. destruct Hd as (_ & Hc & Hl & Hcalls). auto.
Qed.

(** One pass hands its temporary file to [os.remove], last of all. *)
Lemma run_iteration_removed (it : iteration) (s : session) :
  removed (run_iteration a it s) = removed s ++ [it_tmp_path it].
Proof.
  unfold run_iteration, os_remove_quietly. simpl. f_equal.
  pose proof (record_chunk_frame (it_host it) (args_source a) (args_chunk a)
                (it_tmp_path it) s) as Hrec. cbv zeta in Hrec.
  destruct (record_chunk (it_host it) (args_source a) (args_chunk a) (it_tmp_path it) s)
    as [[[|]|e] s1]; simpl in *; try apply Hrec.
  destruct Hrec as (_ & Hrem & _).
  destruct (is_valid_audio_file (it_tmp_path it) (it_env it) (translator s1))
    as [[[|]|] t1]; simpl; try assumption.
  destruct (transcribe_and_translate (it_tmp_path it) (args_language a) (it_env it) t1)
    as [[[[o tr] l]|] t2]; simpl; try assumption.
  destruct (negb (Py.is_empty o) || negb (Py.is_empty tr)); simpl; try assumption.
  destruct (display_result_frame (it_host it) o tr l (with_translator t2 s1)) as (Hd & _).
  cbv zeta in Hd. rewrite Hd. assumption.
Qed.

End Loop.

(** X14: every pass of the loop hands its temporary file to [os.remove],
    exactly once and whatever happened in the pass (recording failed,
    chunk too small, model raised): after any number of passes the files
    removed are the files created, in order. *)
Theorem temporary_files_are_removed (a : Args) (its : list iteration) (s : session) :
  removed (run_loop a its s) = removed s ++ map it_tmp_path its.
Proof.
  revert s. induction its as [|it its IH]; intros s; simpl.
  - now rewrite app_nil_r.
  - rewrite IH, run_iteration_removed, <- app_assoc. reflexivity.
Qed.

(** X15: a pass whose recording did not succeed, or whose chunk is not
    usable, leaves the translator and the model untouched: no model call,
    no change of language memory or chunk counter. *)
Theorem skipped_chunk_leaves_translator (a : Args) (it : iteration) (s : session) :
  (forall out,
      subprocess_run (it_host it) (spawned s)
        (ffmpeg_cmd (it_host it) (args_source a) (args_chunk a) (it_tmp_path it))
      <> Completed out)
  \/ is_usable (it_env it) (it_tmp_path it) = false ->
  translator (run_iteration a it s) = translator s.
Proof.
  intros Hskip.
  unfold run_iteration, os_remove_quietly, record_chunk, run_process. simpl.
  destruct (subprocess_run (it_host it) (spawned s) _) as [out|e| |] eqn:Hp; simpl;
    try reflexivity.
  rewrite is_valid_audio_file_spec.
  destruct Hskip as [Hrec|Hu].
  - exfalso. now apply (Hrec out).
  - rewrite Hu. reflexivity.
Qed.

Lemma skipped_chunk_leaves_translator_witness :
  translator (run_iteration default_args
                {| it_host := bare; it_tmp_path := chunk_wav; it_env := world_hello |}
                (new_session seasoned)) = seasoned /\
  translator (run_iteration default_args
                {| it_host := laptop; it_tmp_path := chunk_wav; it_env := world_tiny |}
                (new_session seasoned)) = seasoned.
Proof.
  split.
  - apply (skipped_chunk_leaves_translator default_args
             {| it_host := bare; it_tmp_path := chunk_wav; it_env := world_hello |}
             (new_session seasoned)).
    left. intros out. discriminate.
  - apply (skipped_chunk_leaves_translator default_args
             {| it_host := laptop; it_tmp_path := chunk_wav; it_env := world_tiny |}
             (new_session seasoned)).
    right. reflexivity.
Defined.

(** X16: over the loop of [run], as over any sequence of invocations, the
    frequency table only accumulates: every language counted stays counted,
    with a count that does not decrease. *)
Theorem run_loop_accumulates (a : Args) (its : list iteration) (s : session) :
  accumulates (detected_lang_cache (self (translator s)))
    (detected_lang_cache (self (translator (run_loop a its s)))).
Proof.
  revert s. induction its as [|it its IH]; intros s; simpl.
  - apply accumulates_refl.
  - eapply accumulates_trans; [|apply IH].
    destruct (run_iteration_translator a it s) as [->|(_ & _ & Hc & _)].
    + apply accumulates_refl.
    + rewrite Hc. apply transcribe_and_translate_accumulates.
Qed.

Section Counter.

Variable a : Args.

Lemma display_result_chunk_count
    (H : host) (original translated detected_lang : Py.str) (s : session) :
  Py.is_empty translated && Py.is_empty original = false ->
  chunk_count (self (translator (display_result H a original translated detected_lang s)))
    = chunk_count (self (translator s)) + 1.
Proof.
  intros Hboth. unfold display_result. rewrite Hboth. display_cases; reflexivity.
Qed.

(** One pass moves the counter by at most one, and only if it prints. *)
Lemma run_iteration_counter (it : iteration) (s : session) :
  exists new,
    console (run_iteration a it s) = console s ++ new /\
    (chunk_count (self (translator (run_iteration a it s)))
       = chunk_count (self (translator s))
     \/ chunk_count (self (translator (run_iteration a it s)))
          = chunk_count (self (translator s)) + 1 /\ new <> []).
Proof.
  unfold run_iteration, os_remove_quietly, record_chunk, run_process, console_print. simpl.
  destruct (subprocess_run (it_host it) (spawned s) _) as [out|e| |]; simpl;
    try (eexists; split; [reflexivity | now left]);
    try (exists []; split; [now rewrite app_nil_r | now left]).
  rewrite is_valid_audio_file_spec.
  destruct (is_usable (it_env it) (it_tmp_path it)); simpl;
    [|exists []; split; [now rewrite app_nil_r | now left]].
  destruct (pipeline_texts_agree_on_emptiness (it_env it) (translator s) (it_tmp_path it)
              (args_language a)) as ([[o tr] l] & t' & Heq & Hempty).
  pose proof (transcribe_and_translate_chunk_count (it_env it) (translator s)
                (it_tmp_path it) (args_language a)) as Hcount.
  rewrite Heq in *. simpl in Hcount, Hempty.
  unfold original_text, translated_text in Hempty. simpl in Hempty.
  destruct (Py.is_empty o) eqn:Ho; rewrite Hempty; simpl.
  - exists []. split; [now rewrite app_nil_r | now left].
  - assert (Hboth : Py.is_empty tr && Py.is_empty o = false) by (now rewrite Ho, andb_false_r).
    set (s2 := with_translator t' _).
    destruct (display_result_lines (it_host it) a o tr l s2 Hboth) as (new & Hconsole & Hlen).
    exists new. split; [exact Hconsole|]. right.
    rewrite (display_result_chunk_count (it_host it) o tr l s2 Hboth).
    subst s2. simpl. rewrite Hcount. split; [reflexivity|].
    rewrite Ho, orb_true_r in Hlen. destruct new; [|discriminate].
    destruct (args_compact a); [discriminate|]. simpl in Hlen.
    destruct (_ && _) in Hlen; discriminate.
Qed.

End Counter.

(** X17: the chunk counter that [run] reports when it stops.  Over any
    number of passes of the loop it never decreases, it grows by at most one
    per pass, and it grows at most by the number of things printed: a chunk
    is counted only in a pass that printed something. *)
Theorem chunk_counter_bounded (a : Args) (its : list iteration) (s : session) :
  let before := chunk_count (self (translator s)) in
  let after := chunk_count (self (translator (run_loop a its s))) in
  before <= after /\
  after - before <= Z.of_nat (List.length its) /\
  after - before
    <= Z.of_nat (List.length (console (run_loop a its s))) - Z.of_nat (List.length (console s)).
Proof.
  cbv zeta. revert s. induction its as [|it its IH]; intros s.
  - simpl. lia.
  - change (run_loop a (it :: its) s) with (run_loop a its (run_iteration a it s)).
    specialize (IH (run_iteration a it s)).
    destruct (run_iteration_counter a it s) as (new & Hconsole & Hcount).
    assert (Hlen : Z.of_nat (List.length (console (run_iteration a it s)))
                   = Z.of_nat (List.length (console s)) + Z.of_nat (List.length new)).
    { rewrite Hconsole, length_app. lia. }
    change (List.length (it :: its)) with (S (List.length its)).
    destruct Hcount as [Hc|[Hc Hnew]].
    + lia.
    + assert (1 <= Z.of_nat (List.length new)) by (destruct new; [congruence | simpl; lia]).
      lia.
Qed.

(* ================================================================= *)
(** * Listing the audio sources *)

Section Split.

Variable sep : N.

(** The first part of a split holds no separator; it is the whole string
    if it is the only part, and otherwise the string goes on with a
    separator and the remaining parts. *)
Lemma split_first (s : Py.str) :
  exists part parts,
    PyStr.split sep s = part :: parts /\
    ~ In sep part /\
    match parts with
    | [] => s = part
    | _ :: _ => exists s', s = part ++ sep :: s' /\ PyStr.split sep s' = parts
    end.
Proof.
  induction s as [|c s (part & parts & Hs & Hfree & Hrest)]; simpl.
  - exists [], []. repeat split; auto.
  - destruct (N.eqb c sep) eqn:Hc.
    + apply N.eqb_eq in Hc; subst c.
      exists [], (part :: parts). split; [now rewrite Hs|]. split; [auto|].
      exists s. split; [reflexivity | assumption].
    + apply N.eqb_neq in Hc. rewrite Hs.
      exists (c :: part), parts. split; [reflexivity|]. split.
      * intros [H|H]; [congruence | contradiction].
      * destruct parts as [|p ps]; [now subst|].
        destruct Hrest as (s' & -> & Hs'). exists s'. split; [reflexivity | assumption].
Qed.

End Split.

(** X18: every source [list_audio_sources] lists comes from a line of
    [pactl]'s output that mentions "monitor" in its lower-cased form; its
    index and name are the first two tab-separated fields of that line, and
    its description is always "Desktop Audio Monitor". *)
Theorem listed_sources_come_from_monitor_lines
    (H : host) (lines : list Py.str) (index name description : Py.str) :
  In (index, name, description) (monitor_rows H lines) ->
  description = Py.lit "Desktop Audio Monitor" /\
  ~ In PyStr.tab index /\ ~ In PyStr.tab name /\
  exists line rest,
    In line lines /\
    PyStr.contains (Py.lit "monitor") (str_lower H line) = true /\
    line = index ++ PyStr.tab :: name ++ rest /\
    (rest = [] \/ exists rest', rest = PyStr.tab :: rest').
Proof.
  induction lines as [|line lines IH]; simpl; [contradiction|].
  destruct (PyStr.contains (Py.lit "monitor") (str_lower H line)) eqn:Hmon.
  - destruct (split_first PyStr.tab line) as (p0 & parts & Hsplit & Hfree0 & Hrest).
    rewrite Hsplit. destruct parts as [|p1 parts].
    + intros Hin. destruct (IH Hin) as (Hd & Hi & Hn & l & r & Hl & Hrow).
      repeat split; auto. exists l, r. split; [now right | assumption].
    + intros [Hrow|Hin].
      * inversion Hrow; subst p0 p1 description. clear Hrow.
        destruct Hrest as (s' & Hline & Hs').
        destruct (split_first PyStr.tab s') as (q & qs & Hq & Hfree1 & Hrest1).
        rewrite Hs' in Hq. inversion Hq; subst q qs. clear Hq.
        split; [reflexivity|]. split; [assumption|]. split; [assumption|].
        destruct parts as [|p2 parts].
        -- exists line, []. subst s'. rewrite app_nil_r. repeat split; auto.
        -- destruct Hrest1 as (s'' & Hs'' & _).
           exists line, (PyStr.tab :: s''). subst s'. repeat split; eauto.
      * destruct (IH Hin) as (Hd & Hi & Hn & l & r & Hl & Hrow).
        repeat split; auto. exists l, r. split; [now right | assumption].
  - intros Hin. destruct (IH Hin) as (Hd & Hi & Hn & l & r & Hl & Hrow).
    repeat split; auto. exists l, r. split; [now right | assumption].
Qed.

Lemma listed_sources_come_from_monitor_lines_witness :
  In (Py.lit "52", Py.lit "alsa_output.pci-0000_00_1f.3.analog-stereo.monitor",
      Py.lit "Desktop Audio Monitor")
     (monitor_rows laptop (PyStr.split PyStr.newline (Py.strip pactl_stdout))) /\
  exists line rest,
    In line (PyStr.split PyStr.newline (Py.strip pactl_stdout)) /\
    PyStr.contains (Py.lit "monitor") (str_lower laptop line) = true /\
    line = Py.lit "52" ++ PyStr.tab
             :: Py.lit "alsa_output.pci-0000_00_1f.3.analog-stereo.monitor" ++ rest /\
    (rest = [] \/ exists rest', rest = PyStr.tab :: rest').
Proof.
  assert (Hin : In (Py.lit "52", Py.lit "alsa_output.pci-0000_00_1f.3.analog-stereo.monitor",
                    Py.lit "Desktop Audio Monitor")
                   (monitor_rows laptop (PyStr.split PyStr.newline (Py.strip pactl_stdout)))).
  { left. reflexivity. }
  split; [exact Hin|].
  apply (listed_sources_come_from_monitor_lines laptop
           (PyStr.split PyStr.newline (Py.strip pactl_stdout))
           (Py.lit "52") (Py.lit "alsa_output.pci-0000_00_1f.3.analog-stereo.monitor")
           (Py.lit "Desktop Audio Monitor") Hin).
Defined.

(** On the laptop one source is listed, the monitor of the sink; the
    microphone is not. *)
Example laptop_lists_its_monitor :
  map (fun x => match x with TableOf rows => Some rows | Text _ => None end)
      (console (snd (list_audio_sources laptop (new_session fresh))))
  = [ None;
      Some [ (Py.lit "52", Py.lit "alsa_output.pci-0000_00_1f.3.analog-stereo.monitor",
              Py.lit "Desktop Audio Monitor") ];
      None ] /\
  fst (list_audio_sources bare (new_session fresh)) = Throws ExFileNotFoundError.
Proof. split; reflexivity. Qed.



(* ================================================================= *)
(** * The language the pipeline settles on *)

(** X20: with an explicit (non-"auto") requested language the result
    always names that language, on the unusable-chunk path, after a model
    failure and after success alike. *)
Theorem explicit_language_is_returned
    (E : env) (s : state) (audio_path source_lang : Py.str) :
  source_lang <> Py.lit "auto" ->
  exists r s',
    transcribe_and_translate audio_path source_lang E s = (Ok r, s') /\
    resolved_language r = source_lang.
Proof.
  intros Hne. apply PyFacts.eqb_neq in Hne.
  destruct (is_usable E audio_path) eqn:Hu.
  - rewrite (transcribe_and_translate_usable E audio_path source_lang source_lang s s Hu
               (resolve_explicit E audio_path source_lang s Hne)).
    destruct (guarded_text_block_returns E audio_path source_lang s) as (r & s2 & Heq & Hl & _).
    eauto.
  - rewrite (transcribe_and_translate_unusable E audio_path source_lang s Hu).
    do 2 eexists. split; reflexivity.
Qed.

Lemma explicit_language_is_returned_witness :
  Py.lit "ko" <> Py.lit "auto" /\
  exists r s',
    transcribe_and_translate chunk_wav (Py.lit "ko") world_fails_after_detection seasoned
      = (Ok r, s') /\
    resolved_language r = Py.lit "ko".
Proof.
  split; [discriminate|].
  apply (explicit_language_is_returned world_fails_after_detection seasoned chunk_wav
           (Py.lit "ko")).
  discriminate.
Defined.

(** X21: a detection trusted with confidence above 0.3 is adopted, English
    included: the result names the detected language, the transcription
    call is hinted with it, and it becomes the last detected language,
    whatever memory held and whatever the later calls do. *)
Theorem confident_detection_is_adopted
    (E : env) (s : state) (audio_path lang : Py.str) (confidence : float)
    (segs : segments) (info : transcription_info) :
  is_usable E audio_path = true ->
  model_transcribe E (calls s) (detection_call audio_path (self s)) = Returns segs info ->
  info_language info = Some lang ->
  language_probability info = Some confidence ->
  (0.3 <? confidence)%float = true ->
  exists r s' rest,
    transcribe_and_translate audio_path (Py.lit "auto") E s = (Ok r, s') /\
    resolved_language r = lang /\
    last_detected_lang (self s') = lang /\
    calls s' = calls s ++
      detection_call audio_path (self s)
      :: transcription_call audio_path lang (self s') :: rest.
Proof.
  intros Hu Hm Hl Hp Hc.
  pose proof (detect_language_usable E audio_path s Hu) as Hd.
  cbv zeta in Hd. rewrite Hm, Hl, Hp in Hd. simpl in Hd. rewrite Hc in Hd.
  pose proof (resolve_auto_confident E audio_path s _ lang confidence Hd Hc) as Hr.
  rewrite (transcribe_and_translate_usable E audio_path _ lang s _ Hu Hr).
  set (s1 := if negb (Py.eqb lang (Py.lit "en")) then _ else _) in *.
  destruct (guarded_text_block_shape E audio_path lang s1)
    as (r & s2 & rest & Heq & Hself & Hcalls & _).
  destruct (guarded_text_block_returns E audio_path lang s1) as (r' & s2' & Heq' & Hlang & _).
  rewrite Heq in Heq'. inversion Heq'; subst r' s2'.
  exists r, s2, rest. split; [assumption|]. split; [assumption|].
  rewrite Hself, Hcalls. subst s1.
  destruct (negb (Py.eqb lang (Py.lit "en"))); simpl; rewrite <- app_assoc;
    split; reflexivity.
Qed.

Lemma confident_detection_is_adopted_witness :
  (is_usable world_english chunk_wav = true /\
   (0.3 <? 0.95)%float = true) /\
  exists r s' rest,
    transcribe_and_translate chunk_wav (Py.lit "auto") world_english seasoned = (Ok r, s') /\
    resolved_language r = Py.lit "en" /\
    last_detected_lang (self s') = Py.lit "en" /\
    calls s' = calls seasoned ++
      detection_call chunk_wav (self seasoned)
      :: transcription_call chunk_wav (Py.lit "en") (self s') :: rest.
Proof.
  split; [split; reflexivity|].
  apply (confident_detection_is_adopted world_english seasoned chunk_wav (Py.lit "en")
           0.95%float (said []) (heard (Py.lit "en") 0.95%float));
    reflexivity.
Defined.
